(** * ok_tool_server: a line-delimited JSON-RPC tool server

    A shallow embedding of [src/ok_tool_server.py] and the properties of
    its protocol loop, window resolution and coordinate mapping.

    Modelling conventions.
    - Python values that travel through the server are exactly the values
      [json.loads] produces, so they are embedded as the type [json].
      A [dict] is the list of its items in insertion order, with distinct
      keys.
    - A Python [float] is embedded as the rational number it denotes
      ([Q]); arithmetic on it is exact.  Binary64 arithmetic agrees with
      the exact one whenever operands and results are representable, which
      is the case for the integral corner values and the dyadic fractions
      used in the examples below.  Infinities and NaN are outside the model.
    - Python [str] is embedded as [string]; [lower], [upper], [strip],
      [isdigit], [isalnum] are the ASCII restrictions of the Python methods.
    - An exception is recorded with its class name and with [str(e)], the
      only two things the server ever observes of it.
    - The operating system, the optional native modules and the part of the
      Python runtime that is not under [src/] are explicit parameters:
      the records [Runtime] and [World].  A [World] is the desktop as one
      call finds it; the input stream of [main] pairs every line with the
      world in which it is handled.
    - A tool is a computation in [M]: it yields the effects it performed,
      in order, and a value or the exception that stopped it.  Writing a
      line to standard output always succeeds, and only exceptions derived
      from [Exception] are raised. *)

From Stdlib Require Import ZArith QArith Qround Qabs List String Ascii Bool Lia.
From Stdlib Require Import DecimalString.
Import ListNotations.

#[local] Set Warnings "-register-all".

Local Open Scope string_scope.
Local Open Scope Z_scope.

(** ** Exceptions and results *)

Record exn : Type := Exn { exn_class : string; exn_str : string }.

Inductive result (A : Type) : Type :=
| Ok (a : A)
| Raise (e : exn).

Arguments Ok {A} a.
Arguments Raise {A} e.

Definition is_ok {A} (r : result A) : bool :=
  match r with Ok _ => true | Raise _ => false end.

(** ** JSON values, as produced by [json.loads] *)

Inductive json : Type :=
| JNull
| JBool (b : bool)
| JInt (n : Z)
| JFloat (q : Q)
| JStr (s : string)
| JArr (items : list json)
| JObj (fields : list (string * json)).

Definition dict : Type := list (string * json).

Fixpoint dict_lookup (d : dict) (k : string) : option json :=
  match d with
  | [] => None
  | (k', v) :: d' => if String.eqb k' k then Some v else dict_lookup d' k
  end.

(** [k in d] *)
Definition dict_mem (d : dict) (k : string) : bool :=
  match dict_lookup d k with Some _ => true | None => false end.

(** [d.get(k)] *)
Definition dict_get (d : dict) (k : string) : json :=
  match dict_lookup d k with Some v => v | None => JNull end.

(** Python truthiness of a value, as tested by [or], [if] and [not]. *)
Definition truthy (v : json) : bool :=
  match v with
  | JNull => false
  | JBool b => b
  | JInt n => negb (n =? 0)
  | JFloat q => negb (Qnum q =? 0)
  | JStr s => negb (String.eqb s "")
  | JArr l => match l with [] => false | _ => true end
  | JObj l => match l with [] => false | _ => true end
  end.

(** [a or b] *)
Definition py_or (a b : json) : json := if truthy a then a else b.

Definition type_name (v : json) : string :=
  match v with
  | JNull => "NoneType"
  | JBool _ => "bool"
  | JInt _ => "int"
  | JFloat _ => "float"
  | JStr _ => "str"
  | JArr _ => "list"
  | JObj _ => "dict"
  end.

Definition AttributeError (v : json) (attr : string) : exn :=
  Exn "AttributeError"
      ("'" ++ type_name v ++ "' object has no attribute '" ++ attr ++ "'").

(** ** Strings *)

Definition in_range (lo hi : ascii) (c : ascii) : bool :=
  (N_of_ascii lo <=? N_of_ascii c)%N && (N_of_ascii c <=? N_of_ascii hi)%N.

Definition is_upper (c : ascii) : bool := in_range "A" "Z" c.
Definition is_lower (c : ascii) : bool := in_range "a" "z" c.
Definition is_digit (c : ascii) : bool := in_range "0" "9" c.
Definition is_alnum (c : ascii) : bool := is_upper c || is_lower c || is_digit c.

(** The characters [str.strip()] removes, within ASCII. *)
Definition is_space (c : ascii) : bool :=
  in_range "009" "013" c || in_range "028" "032" c.

Definition lower_char (c : ascii) : ascii :=
  if is_upper c then ascii_of_N (N_of_ascii c + 32) else c.

Definition upper_char (c : ascii) : ascii :=
  if is_lower c then ascii_of_N (N_of_ascii c - 32) else c.

Fixpoint map_string (f : ascii -> ascii) (s : string) : string :=
  match s with
  | EmptyString => EmptyString
  | String c s' => String (f c) (map_string f s')
  end.

Definition lower (s : string) : string := map_string lower_char s.
Definition upper (s : string) : string := map_string upper_char s.

Fixpoint forall_char (p : ascii -> bool) (s : string) : bool :=
  match s with
  | EmptyString => true
  | String c s' => p c && forall_char p s'
  end.

(** [s.isdigit()] and [s.isalnum()]: false on the empty string. *)
Definition isdigit (s : string) : bool :=
  negb (String.eqb s "") && forall_char is_digit s.
Definition isalnum (s : string) : bool :=
  negb (String.eqb s "") && forall_char is_alnum s.

Fixpoint lstrip (s : string) : string :=
  match s with
  | String c s' => if is_space c then lstrip s' else s
  | EmptyString => EmptyString
  end.

Fixpoint rstrip (s : string) : string :=
  match s with
  | EmptyString => EmptyString
  | String c s' =>
      match rstrip s' with
      | EmptyString => if is_space c then EmptyString else String c EmptyString
      | r => String c r
      end
  end.

Definition strip (s : string) : string := rstrip (lstrip s).

(** [needle in hay] *)
Fixpoint str_in (needle hay : string) : bool :=
  prefix needle hay ||
  match hay with
  | EmptyString => false
  | String _ hay' => str_in needle hay'
  end.

(** [s[1:]] *)
Definition tail (s : string) : string :=
  match s with EmptyString => EmptyString | String _ s' => s' end.

(** Decimal rendering of an integer: [str(n)] and [f"{n}"]. *)
Definition str_of_Z (n : Z) : string := NilZero.string_of_int (Z.to_int n).

(** [int(s)] on a string: surrounding white space, an optional sign,
    decimal digits with single underscores between them. *)
Fixpoint digits_value (acc : Z) (prev_digit : bool) (s : string) : option Z :=
  match s with
  | EmptyString => if prev_digit then Some acc else None
  | String c s' =>
      if is_digit c
      then digits_value (10 * acc + Z.of_N (N_of_ascii c - 48)) true s'
      else if Ascii.eqb c "_" && prev_digit
           then match s' with
                | String c' _ => if is_digit c' then digits_value acc false s' else None
                | EmptyString => None
                end
           else None
  end.

Definition int_of_str (s : string) : option Z :=
  match strip s with
  | EmptyString => None
  | String c s' =>
      if Ascii.eqb c "-" then option_map Z.opp (digits_value 0 false s')
      else if Ascii.eqb c "+" then digits_value 0 false s'
      else digits_value 0 false (String c s')
  end.

(** ** Numbers *)

(** [round(q)] with one argument: nearest integer, ties to even. *)
Definition py_round (q : Q) : Z :=
  let f := Qfloor q in
  match Qcompare (q - inject_Z f) (1 # 2) with
  | Lt => f
  | Gt => f + 1
  | Eq => if Z.even f then f else f + 1
  end.

(** [int(q)] on a float: truncation towards zero. *)
Definition trunc (q : Q) : Z := Z.quot (Qnum q) (Zpos (Qden q)).

Fixpoint zeros (n : nat) : string :=
  match n with O => EmptyString | S n' => String "0" (zeros n') end.

(** [s.zfill(w)] on a string of digits *)
Definition zfill (w : nat) (s : string) : string :=
  zeros (w - String.length s) ++ s.

(** [f"{q:.4f}"] *)
Definition fmt_4f (q : Q) : string :=
  let m := py_round (Qabs q * inject_Z 10000) in
  (if Qnum q <? 0 then "-" else "") ++
  str_of_Z (m / 10000) ++ "." ++ zfill 4 (str_of_Z (m mod 10000)).

(** ** The runtime and the operating system

    What the server imports but does not define.  [Runtime] collects the
    pure library functions; [World] is the state of the desktop during one
    tool call together with the outcome of every native call the server may
    issue: [Raise e] is a call that raises. *)

Record Runtime : Type := {
  (** [raw_line.decode("utf-8-sig", errors="replace")] *)
  bytes_decode : string -> result string;
  json_loads : string -> result json;
  (** [float(s)] on a [str] *)
  float_of_str : string -> result Q;
  (** [repr(v)]; [str(v)] and [f"{v}"] are [repr(v)] unless [v] is a [str] *)
  py_repr : json -> string;
  (** [base64.b64encode(b).decode("ascii")] *)
  b64encode : string -> string
}.

Definition rect : Type := (Z * Z * Z * Z)%type.

(** A PIL image, as far as the server looks at it. *)
Record image : Type := {
  img_width : Z;
  img_height : Z;
  img_mode : string;
  img_data : string
}.

Record World : Type := {
  (** [from config import config]; its value, or the import error *)
  ok_config : result json;
  has_win32gui : bool;
  has_win32api : bool;
  has_win32con : bool;
  has_pydirectinput : bool;
  has_PIL : bool;
  (** the handles [EnumWindows] passes to its callback, in order *)
  win32gui_EnumWindows : result (list Z);
  win32gui_IsWindow : Z -> result bool;
  win32gui_IsWindowVisible : Z -> result bool;
  win32gui_GetClassName : Z -> result string;
  win32gui_GetWindowText : Z -> result string;
  win32gui_GetWindowRect : Z -> result rect;
  win32gui_GetClientRect : Z -> result rect;
  win32gui_ClientToScreen : Z -> Z * Z -> result (Z * Z);
  win32gui_ScreenToClient : Z -> Z * Z -> result (Z * Z);
  win32api_GetSystemMetrics : Z -> result Z;
  win32api_VkKeyScan : string -> result Z;
  win32api_PostMessage : Z -> Z -> Z -> Z -> result unit;
  pydirectinput_moveTo : Z -> Z -> result unit;
  pydirectinput_click : string -> result unit;
  pydirectinput_keyDown : string -> result unit;
  pydirectinput_keyUp : string -> result unit;
  pydirectinput_press : string -> result unit;
  ImageGrab_grab : rect -> result image;
  (** [c = img.copy(); c.thumbnail((w, h))] *)
  Image_thumbnail : image -> Z -> Z -> result image;
  Image_convert : image -> string -> result image;
  (** [img.save(buf, format=..., ...)], then [buf.getvalue()] *)
  Image_save : image -> string -> option Z -> result string
}.

(** The constants of [win32con] the server reads. *)
Module win32con.
Definition VK_BACK := 8.
Definition VK_TAB := 9.
Definition VK_RETURN := 13.
Definition VK_SHIFT := 16.
Definition VK_CONTROL := 17.
Definition VK_MENU := 18.
Definition VK_ESCAPE := 27.
Definition VK_SPACE := 32.
Definition VK_LEFT := 37.
Definition VK_UP := 38.
Definition VK_RIGHT := 39.
Definition VK_DOWN := 40.
Definition VK_DELETE := 46.
Definition VK_LSHIFT := 160.
Definition VK_RSHIFT := 161.
Definition VK_LCONTROL := 162.
Definition VK_RCONTROL := 163.
Definition VK_LMENU := 164.
Definition VK_RMENU := 165.
Definition WM_KEYDOWN := 256.
Definition WM_KEYUP := 257.
Definition WM_LBUTTONDOWN := 513.
Definition WM_LBUTTONUP := 514.
Definition WM_RBUTTONDOWN := 516.
Definition WM_RBUTTONUP := 517.
Definition WM_MBUTTONDOWN := 519.
Definition WM_MBUTTONUP := 520.
Definition MK_LBUTTON := 1.
Definition MK_RBUTTON := 2.
Definition MK_MBUTTON := 16.

(** The attributes reached by name, through [getattr]. *)
Definition by_name : list (string * Z) :=
  [ ("VK_F1", 112); ("VK_F2", 113); ("VK_F3", 114); ("VK_F4", 115);
    ("VK_F5", 116); ("VK_F6", 117); ("VK_F7", 118); ("VK_F8", 119);
    ("VK_F9", 120); ("VK_F10", 121); ("VK_F11", 122); ("VK_F12", 123);
    ("VK_F13", 124); ("VK_F14", 125); ("VK_F15", 126); ("VK_F16", 127);
    ("VK_F17", 128); ("VK_F18", 129); ("VK_F19", 130); ("VK_F20", 131);
    ("VK_F21", 132); ("VK_F22", 133); ("VK_F23", 134); ("VK_F24", 135) ].

Fixpoint lookup (l : list (string * Z)) (name : string) : option Z :=
  match l with
  | [] => None
  | (k, v) :: l' => if String.eqb k name then Some v else lookup l' name
  end.

Definition getattr (name : string) : result Z :=
  match lookup by_name name with
  | Some v => Ok v
  | None =>
      Raise (Exn "AttributeError"
               ("module 'win32con' has no attribute '" ++ name ++ "'"))
  end.
End win32con.

(** ** Computations

    [result] is a computation that may raise.  [M] is one that also
    performs effects: it yields the effects performed, in order, and
    either a value or the exception that interrupted it. *)

Definition rbind {A B} (r : result A) (k : A -> result B) : result B :=
  match r with Ok a => k a | Raise e => Raise e end.

Notation "'let?' x ':=' r 'in' k" := (rbind r (fun x => k))
  (at level 10, x pattern, r at level 100, k at level 200).

(** [try: r  except Exception: d] *)
Definition try_except {A} (r : result A) (d : A) : A :=
  match r with Ok a => a | Raise _ => d end.

Inductive effect : Type :=
| Sleep (ms : Z)
| PostMessage (hwnd msg wparam lparam : Z)
| MoveTo (px py : Z)
| PdiClick (button : string)
| PdiKeyDown (key : string)
| PdiKeyUp (key : string)
| PdiPress (key : string)
| Grab (bbox : rect).

Definition M (A : Type) : Type := (list effect * result A)%type.

Definition ret {A} (a : A) : M A := ([], Ok a).
Definition raise {A} (e : exn) : M A := ([], Raise e).
Definition lift {A} (r : result A) : M A := ([], r).

Definition bind {A B} (m : M A) (k : A -> M B) : M B :=
  match m with
  | (tr, Ok a) => let (tr', r) := k a in ((tr ++ tr')%list, r)
  | (tr, Raise e) => (tr, Raise e)
  end.

Notation "'do' x '<-' m ';' k" := (bind m (fun x => k))
  (at level 10, x pattern, m at level 100, k at level 200).

(** A native call with an effect: the effect is recorded when the call
    returns. *)
Definition perform (ev : effect) (outcome : result unit) : M unit :=
  match outcome with
  | Ok _ => ([ev], Ok tt)
  | Raise e => ([], Raise e)
  end.

Definition RuntimeError (msg : string) : exn := Exn "RuntimeError" msg.
Definition ValueError (msg : string) : exn := Exn "ValueError" msg.

(** [time.sleep(ms / 1000.0)] *)
Definition sleep_ms (ms : Z) : M unit :=
  if ms <? 0
  then raise (ValueError "sleep length must be non-negative")
  else ([Sleep ms], Ok tt).

(** ** Conversions applied to arguments *)

Section Conversions.
Variable rt : Runtime.

(** [str(v)] *)
Definition py_str (v : json) : string :=
  match v with
  | JStr s => s
  | JNull => "None"
  | JBool true => "True"
  | JBool false => "False"
  | JInt n => str_of_Z n
  | _ => py_repr rt v
  end.

(** [int(v)] *)
Definition py_int (v : json) : result Z :=
  match v with
  | JBool b => Ok (if b then 1 else 0)
  | JInt n => Ok n
  | JFloat q => Ok (trunc q)
  | JStr s =>
      match int_of_str s with
      | Some n => Ok n
      | None =>
          Raise (ValueError ("invalid literal for int() with base 10: "
                             ++ py_repr rt v))
      end
  | _ =>
      Raise (Exn "TypeError"
               ("int() argument must be a string, a bytes-like object or a real number, not '"
                ++ type_name v ++ "'"))
  end.

(** [float(v)] *)
Definition py_float (v : json) : result Q :=
  match v with
  | JBool b => Ok (if b then 1%Q else 0%Q)
  | JInt n => Ok (inject_Z n)
  | JFloat q => Ok q
  | JStr s => float_of_str rt s
  | _ =>
      Raise (Exn "TypeError"
               ("float() argument must be a string or a real number, not '"
                ++ type_name v ++ "'"))
  end.

(** [v.lower()] *)
Definition py_lower (v : json) : result string :=
  match v with
  | JStr s => Ok (lower s)
  | _ => Raise (AttributeError v "lower")
  end.

(** [args[k]] *)
Definition dict_getitem (d : dict) (k : string) : result json :=
  match dict_lookup d k with
  | Some v => Ok v
  | None => Raise (Exn "KeyError" (py_repr rt (JStr k)))
  end.
End Conversions.

(** ** Window resolution *)

Definition MCP_PROTOCOL_VERSION : string := "2024-11-05".

(** The dataclass [WindowTarget].  [title_contains] is whatever the caller
    passed under that key: the annotation [Optional[str]] is not enforced. *)
Record WindowTarget : Type := {
  hwnd_class : option string;
  title_contains : json;
  include_window_frame : bool
}.

(** [max(l, key=key)]: the first element whose key is the largest. *)
Fixpoint max_from {A} (key : A -> Z) (best : A) (kbest : Z) (l : list A) : A :=
  match l with
  | [] => best
  | x :: l' =>
      if key x >? kbest then max_from key x (key x) l' else max_from key best kbest l'
  end.

Definition py_max {A} (key : A -> Z) (l : list A) : option A :=
  match l with
  | [] => None
  | x :: l' => Some (max_from key x (key x) l')
  end.

(** [for i in range(count): body(i)] *)
Fixpoint for_range (n : nat) (i : Z) (body : Z -> M unit) : M unit :=
  match n with
  | O => ret tt
  | S n' => do _ <- body i; for_range n' (i + 1) body
  end.

Definition for_in_range (count : Z) (body : Z -> M unit) : M unit :=
  for_range (Z.to_nat count) 0 body.

Section Server.
Variable rt : Runtime.
Variable w : World.

Definition _try_load_default_hwnd_class : json :=
  try_except
    (let? cfg := ok_config w in
     let windows_cfg :=
       match cfg with JObj d => dict_get d "windows" | _ => JNull end in
     match windows_cfg with
     | JObj d =>
         match dict_get d "hwnd_class" with
         | JStr s => if negb (String.eqb (strip s) "") then Ok (JStr (strip s)) else Ok JNull
         | _ => Ok JNull
         end
     | _ => Ok JNull
     end)
    JNull.

(** The body of [enum_cb] inside its [try]: [Ok true] when the handle is
    appended to [matches], [Ok false] when the callback returns early. *)
Definition enum_cb_body (target : WindowTarget) (hwnd : Z) : result bool :=
  let? is_window := win32gui_IsWindow w hwnd in
  if negb is_window then Ok false else
  let? visible := win32gui_IsWindowVisible w hwnd in
  if negb visible then Ok false else
  let? class_ok :=
    match hwnd_class target with
    | Some c =>
        if negb (String.eqb c "")
        then let? cn := win32gui_GetClassName w hwnd in Ok (String.eqb cn c)
        else Ok true
    | None => Ok true
    end in
  if negb class_ok then Ok false else
  let? title_ok :=
    if truthy (title_contains target)
    then let? title := win32gui_GetWindowText w hwnd in
         let? needle := py_lower (title_contains target) in
         Ok (str_in needle (lower title))
    else Ok true in
  Ok title_ok.

Definition enum_cb (target : WindowTarget) (hwnd : Z) : bool :=
  try_except (enum_cb_body target hwnd) false.

Definition area (hwnd : Z) : Z :=
  try_except
    (let? (l, t, r, b) := win32gui_GetWindowRect w hwnd in
     Ok (Z.max 0 (r - l) * Z.max 0 (b - t)))
    0.

Definition _find_window (target : WindowTarget) : option Z :=
  if negb (has_win32gui w) then None else
  match win32gui_EnumWindows w with
  | Raise _ => None
  | Ok hwnds =>
      let matches := filter (enum_cb target) hwnds in
      match matches with
      | [] => None
      | _ => py_max area matches
      end
  end.

Definition _get_capture_rect (target : string) (window_target : WindowTarget)
  : result rect :=
  if String.eqb target "screen" then
    Ok (try_except
          (if negb (has_win32api w)
           then Raise (Exn "ImportError" "No module named 'win32api'")
           else
             let? width := win32api_GetSystemMetrics w 0 in
             let? height := win32api_GetSystemMetrics w 1 in
             Ok (0, 0, width, height))
          (0, 0, 1920, 1080))
  else
    if negb (has_win32gui w)
    then Raise (RuntimeError "pywin32 is required for window capture")
    else
      match _find_window window_target with
      | None => Raise (RuntimeError "target window not found")
      | Some hwnd =>
          if include_window_frame window_target
          then win32gui_GetWindowRect w hwnd
          else
            let? (cl, ct, cr, cb) := win32gui_GetClientRect w hwnd in
            let? (left_, top) := win32gui_ClientToScreen w hwnd (cl, ct) in
            let? (right_, bottom) := win32gui_ClientToScreen w hwnd (cr, cb) in
            Ok (left_, top, right_, bottom)
      end.

(** ** Capture *)

Definition _pil_grab (bbox : rect) : M image :=
  if negb (has_PIL w)
  then raise (RuntimeError "pillow is required for capture")
  else match ImageGrab_grab w bbox with
       | Ok img => ([Grab bbox], Ok img)
       | Raise e => raise e
       end.

Definition _encode_image (img : image) (fmt : string)
           (quality max_width max_height : Z)
  : result (string * string * Z * Z) :=
  if negb (has_PIL w)
  then Raise (RuntimeError "pillow is required for capture")
  else
    let? img :=
      if (max_width >? 0) && (max_height >? 0)
      then Image_thumbnail w img max_width max_height
      else Ok img in
    let? (img, bytes, mime) :=
      if String.eqb fmt "png"
      then let? bytes := Image_save w img "PNG" None in
           Ok (img, bytes, "image/png")
      else let? img :=
             if negb (String.eqb (img_mode img) "RGB" || String.eqb (img_mode img) "L")
             then Image_convert w img "RGB"
             else Ok img in
           let? bytes := Image_save w img "JPEG" (Some quality) in
           Ok (img, bytes, "image/jpeg") in
    Ok (b64encode rt bytes, mime, img_width img, img_height img).

(** The [WindowTarget] the tools build from their arguments. *)
Definition window_target (hwnd_class_arg title_contains_arg : json)
           (frame : bool) : WindowTarget :=
  {| hwnd_class :=
       if truthy hwnd_class_arg then Some (py_str rt hwnd_class_arg) else None;
     title_contains := title_contains_arg;
     include_window_frame := frame |}.

Definition rect_json (rc : rect) : json :=
  let '(l, t, r, b) := rc in
  JObj [("left", JInt l); ("top", JInt t); ("right", JInt r); ("bottom", JInt b)].

Definition text_item (text : string) : json :=
  JObj [("type", JStr "text"); ("text", JStr text)].

(** The locals of [_tool_capture] read from the arguments (lines 246-258). *)
Record capture_locals : Type := {
  p_target : string;
  p_fmt : string;
  p_quality : Z;
  p_max_width : Z;
  p_max_height : Z;
  p_window : WindowTarget
}.

Definition capture_locals_of (args : dict) : result capture_locals :=
  let? target := py_lower (py_or (dict_get args "target") (JStr "window")) in
  let? fmt := py_lower (py_or (dict_get args "format") (JStr "jpeg")) in
  let? quality := py_int rt (py_or (dict_get args "quality") (JInt 65)) in
  let? max_width := py_int rt (py_or (dict_get args "max_width") (JInt 1280)) in
  let? max_height := py_int rt (py_or (dict_get args "max_height") (JInt 720)) in
  let hwnd_class := py_or (dict_get args "hwnd_class") _try_load_default_hwnd_class in
  let title_contains := dict_get args "title_contains" in
  let include_window_frame :=
    truthy (py_or (dict_get args "include_window_frame") (JBool false)) in
  Ok {| p_target := target; p_fmt := fmt; p_quality := quality;
        p_max_width := max_width; p_max_height := max_height;
        p_window := window_target hwnd_class title_contains include_window_frame |}.

(** Lines 260-280: grab the rectangle, encode, build the result. *)
Definition capture_rect (a : capture_locals) (rc : rect) : M json :=
  do img <- _pil_grab rc;
  do (data, mime, wd, ht) <-
     lift (_encode_image img (p_fmt a) (p_quality a) (p_max_width a) (p_max_height a));
  let '(l, t, r, b) := rc in
  ret (JObj
    [("content", JArr
        [text_item ("capture ok: target=" ++ p_target a ++ " rect=(" ++ str_of_Z l
                    ++ "," ++ str_of_Z t ++ "," ++ str_of_Z r ++ "," ++ str_of_Z b
                    ++ ") size=" ++ str_of_Z wd ++ "x" ++ str_of_Z ht
                    ++ " (x,y are normalized [0..1] within this rect)");
         JObj [("type", JStr "image"); ("data", JStr data); ("mimeType", JStr mime)]]);
     ("isError", JBool false);
     ("metadata", JObj
        [("target", JStr (p_target a));
         ("rect", rect_json rc);
         ("width", JInt wd);
         ("height", JInt ht);
         ("mimeType", JStr mime)])]).

Definition _tool_capture (args : dict) : M json :=
  do a <- lift (capture_locals_of args);
  do rc <- lift (_get_capture_rect (p_target a) (p_window a));
  capture_rect a rc.

(** ** Wait *)

Definition _tool_wait (args : dict) : M json :=
  do ms <- lift (py_int rt (py_or (dict_get args "ms") (JInt 250)));
  do _ <- sleep_ms ms;
  ret (JObj
    [("content", JArr [text_item ("wait ok: " ++ str_of_Z ms ++ "ms")]);
     ("isError", JBool false);
     ("metadata", JObj [("ms", JInt ms)])]).

(** ** Click *)

(** Lines 307-311 of [_tool_click]: normalized coordinates to a screen
    point. *)
Definition to_screen (rc : rect) (x y : Q) : Z * Z :=
  let '(l, t, r, b) := rc in
  let width := Z.max 1 (r - l) in
  let height := Z.max 1 (b - t) in
  let px := py_round (inject_Z l + x * inject_Z width) in
  let py := py_round (inject_Z t + y * inject_Z height) in
  (px, py).

(** The pause between repetitions [i] and [i + 1] of [count]. *)
Definition pause (i count interval_ms : Z) : M unit :=
  if (i + 1 <? count) && (interval_ms >? 0) then sleep_ms interval_ms else ret tt.

Definition click_pydirectinput (px py : Z) (button : string)
           (clicks interval_ms : Z) : M unit :=
  if negb (has_pydirectinput w)
  then raise (RuntimeError "pydirectinput is required for click mode=pydirectinput")
  else
    do _ <- perform (MoveTo px py) (pydirectinput_moveTo w px py);
    for_in_range clicks (fun i =>
      let b := if String.eqb button "right" then "right"
               else if String.eqb button "middle" then "middle"
               else "left" in
      do _ <- perform (PdiClick b) (pydirectinput_click w b);
      pause i clicks interval_ms).

Definition click_postmessage (target : WindowTarget) (px py : Z)
           (button : string) (clicks interval_ms : Z) : M unit :=
  if negb (has_win32api w && has_win32con w && has_win32gui w)
  then raise (RuntimeError "pywin32 is required for click mode=postmessage")
  else
    match _find_window target with
    | None => raise (RuntimeError "target window not found")
    | Some hwnd =>
        do (cx, cy) <- lift (win32gui_ScreenToClient w hwnd (px, py));
        let lparam := Z.lor (Z.shiftl cy 16) (Z.land cx 65535) in
        let '(down, up, wparam) :=
          if String.eqb button "right"
          then (win32con.WM_RBUTTONDOWN, win32con.WM_RBUTTONUP, win32con.MK_RBUTTON)
          else if String.eqb button "middle"
          then (win32con.WM_MBUTTONDOWN, win32con.WM_MBUTTONUP, win32con.MK_MBUTTON)
          else (win32con.WM_LBUTTONDOWN, win32con.WM_LBUTTONUP, win32con.MK_LBUTTON) in
        for_in_range clicks (fun i =>
          do _ <- perform (PostMessage hwnd down wparam lparam)
                          (win32api_PostMessage w hwnd down wparam lparam);
          do _ <- perform (PostMessage hwnd up 0 lparam)
                          (win32api_PostMessage w hwnd up 0 lparam);
          pause i clicks interval_ms)
    end.

Definition click_result (target mode button : string) (x y : Q)
           (px py : Z) (rc : rect) (clicks : Z) : json :=
  JObj
    [("content", JArr
        [text_item ("click ok: target=" ++ target ++ " mode=" ++ mode
                    ++ " button=" ++ button ++ " at x=" ++ fmt_4f x
                    ++ ",y=" ++ fmt_4f y ++ " (screen " ++ str_of_Z px ++ ","
                    ++ str_of_Z py ++ ") clicks=" ++ str_of_Z clicks)]);
     ("isError", JBool false);
     ("metadata", JObj
        [("target", JStr target);
         ("mode", JStr mode);
         ("button", JStr button);
         ("x", JFloat x);
         ("y", JFloat y);
         ("screen", JObj [("x", JInt px); ("y", JInt py)]);
         ("rect", rect_json rc);
         ("clicks", JInt clicks)])].

(** The locals of [_tool_click] read from the arguments (lines 290-305). *)
Record click_locals : Type := {
  c_target : string;
  c_mode : string;
  c_button : string;
  c_clicks : Z;
  c_interval_ms : Z;
  c_x : Q;
  c_y : Q;
  c_window : WindowTarget
}.

Definition click_locals_of (args : dict) : result click_locals :=
  let? target := py_lower (py_or (dict_get args "target") (JStr "window")) in
  let? mode := py_lower (py_or (dict_get args "mode") (JStr "postmessage")) in
  let? button := py_lower (py_or (dict_get args "button") (JStr "left")) in
  let? clicks := py_int rt (py_or (dict_get args "clicks") (JInt 1)) in
  let? interval_ms := py_int rt (py_or (dict_get args "interval_ms") (JInt 60)) in
  let? x := (let? v := dict_getitem rt args "x" in py_float rt v) in
  let? y := (let? v := dict_getitem rt args "y" in py_float rt v) in
  let hwnd_class := py_or (dict_get args "hwnd_class") _try_load_default_hwnd_class in
  let title_contains := dict_get args "title_contains" in
  let include_window_frame :=
    truthy (py_or (dict_get args "include_window_frame") (JBool false)) in
  Ok {| c_target := target; c_mode := mode; c_button := button;
        c_clicks := clicks; c_interval_ms := interval_ms; c_x := x; c_y := y;
        c_window := window_target hwnd_class title_contains include_window_frame |}.

(** Lines 313-355: the injection of the clicks at the screen point. *)
Definition click_dispatch (a : click_locals) (px py : Z) : M unit :=
  if String.eqb (c_mode a) "pydirectinput"
  then click_pydirectinput px py (c_button a) (c_clicks a) (c_interval_ms a)
  else click_postmessage (c_window a) px py (c_button a) (c_clicks a) (c_interval_ms a).

Definition _tool_click (args : dict) : M json :=
  do a <- lift (click_locals_of args);
  do rc <- lift (_get_capture_rect (c_target a) (c_window a));
  let '(px, py) := to_screen rc (c_x a) (c_y a) in
  do _ <- click_dispatch a px py;
  ret (click_result (c_target a) (c_mode a) (c_button a) (c_x a) (c_y a)
                    px py rc (c_clicks a)).

(** ** Key *)

Definition special : list (string * Z) :=
  [ ("esc", win32con.VK_ESCAPE);
    ("escape", win32con.VK_ESCAPE);
    ("space", win32con.VK_SPACE);
    ("tab", win32con.VK_TAB);
    ("enter", win32con.VK_RETURN);
    ("return", win32con.VK_RETURN);
    ("backspace", win32con.VK_BACK);
    ("delete", win32con.VK_DELETE);
    ("up", win32con.VK_UP);
    ("down", win32con.VK_DOWN);
    ("left", win32con.VK_LEFT);
    ("right", win32con.VK_RIGHT);
    ("shift", win32con.VK_SHIFT);
    ("lshift", win32con.VK_LSHIFT);
    ("rshift", win32con.VK_RSHIFT);
    ("ctrl", win32con.VK_CONTROL);
    ("control", win32con.VK_CONTROL);
    ("lctrl", win32con.VK_LCONTROL);
    ("rctrl", win32con.VK_RCONTROL);
    ("alt", win32con.VK_MENU);
    ("menu", win32con.VK_MENU);
    ("lalt", win32con.VK_LMENU);
    ("ralt", win32con.VK_RMENU) ].

(** [ord(s)] *)
Definition ord (s : string) : result Z :=
  match s with
  | String c EmptyString => Ok (Z.of_N (N_of_ascii c))
  | _ =>
      Raise (Exn "TypeError"
               ("ord() expected a character, but string of length "
                ++ str_of_Z (Z.of_nat (String.length s)) ++ " found"))
  end.

(** The last step of [_vk_from_key], the platform's key-scan lookup. *)
Definition vk_scan_lookup (name key : string) : result Z :=
  let? vk_scan := win32api_VkKeyScan w key in
  if vk_scan =? -1
  then Raise (ValueError ("Unsupported key: " ++ name))
  else Ok (Z.land vk_scan 255).

Definition _vk_from_key (name : string) : result Z :=
  if negb (has_win32con w && has_win32api w)
  then Raise (RuntimeError "pywin32 is required for key mode=postmessage")
  else
    let key := lower (strip name) in
    match win32con.lookup special key with
    | Some vk => Ok vk
    | None =>
        let after_fkey : result Z :=
          if (String.length key =? 1)%nat && isalnum key
          then ord (upper key)
          else vk_scan_lookup name key in
        if prefix "f" key && isdigit (tail key)
        then
          match int_of_str (tail key) with
          | None =>
              Raise (ValueError ("invalid literal for int() with base 10: "
                                 ++ py_repr rt (JStr (tail key))))
          | Some n =>
              if (1 <=? n) && (n <=? 24)
              then win32con.getattr ("VK_F" ++ str_of_Z n)
              else after_fkey
          end
        else after_fkey
    end.

Definition key_result (mode key action : string) (repeat : Z) : json :=
  JObj
    [("content", JArr
        [text_item ("key ok: mode=" ++ mode ++ " key=" ++ key ++ " action="
                    ++ action ++ " repeat=" ++ str_of_Z repeat)]);
     ("isError", JBool false)].

(** The locals of [_tool_key] read from the arguments (lines 422-429). *)
Record key_locals : Type := {
  k_mode : string;
  k_key : string;
  k_action : string;
  k_repeat : Z;
  k_interval_ms : Z;
  k_window : WindowTarget
}.

Definition key_locals_of (args : dict) : result key_locals :=
  let? mode := py_lower (py_or (dict_get args "mode") (JStr "postmessage")) in
  let? key := (let? v := dict_getitem rt args "key" in Ok (py_str rt v)) in
  let? action := py_lower (py_or (dict_get args "action") (JStr "press")) in
  let? repeat := py_int rt (py_or (dict_get args "repeat") (JInt 1)) in
  let? interval_ms := py_int rt (py_or (dict_get args "interval_ms") (JInt 35)) in
  let hwnd_class := py_or (dict_get args "hwnd_class") _try_load_default_hwnd_class in
  let title_contains := dict_get args "title_contains" in
  Ok {| k_mode := mode; k_key := key; k_action := action; k_repeat := repeat;
        k_interval_ms := interval_ms;
        k_window := window_target hwnd_class title_contains false |}.

Definition key_pydirectinput (a : key_locals) : M unit :=
  if negb (has_pydirectinput w)
  then raise (RuntimeError "pydirectinput is required for key mode=pydirectinput")
  else
    for_in_range (k_repeat a) (fun i =>
      do _ <- (if String.eqb (k_action a) "down"
               then perform (PdiKeyDown (k_key a)) (pydirectinput_keyDown w (k_key a))
               else if String.eqb (k_action a) "up"
               then perform (PdiKeyUp (k_key a)) (pydirectinput_keyUp w (k_key a))
               else perform (PdiPress (k_key a)) (pydirectinput_press w (k_key a)));
      pause i (k_repeat a) (k_interval_ms a)).

Definition key_postmessage (a : key_locals) : M unit :=
  if negb (has_win32api w && has_win32con w)
  then raise (RuntimeError "pywin32 is required for key mode=postmessage")
  else
    match _find_window (k_window a) with
    | None => raise (RuntimeError "target window not found")
    | Some hwnd =>
        do vk <- lift (_vk_from_key (k_key a));
        let down_msg := win32con.WM_KEYDOWN in
        let up_msg := win32con.WM_KEYUP in
        for_in_range (k_repeat a) (fun i =>
          do _ <- (if String.eqb (k_action a) "press" || String.eqb (k_action a) "down"
                   then perform (PostMessage hwnd down_msg vk 0)
                                (win32api_PostMessage w hwnd down_msg vk 0)
                   else ret tt);
          do _ <- (if String.eqb (k_action a) "press" || String.eqb (k_action a) "up"
                   then perform (PostMessage hwnd up_msg vk 0)
                                (win32api_PostMessage w hwnd up_msg vk 0)
                   else ret tt);
          pause i (k_repeat a) (k_interval_ms a))
    end.

Definition _tool_key (args : dict) : M json :=
  do a <- lift (key_locals_of args);
  do _ <- (if String.eqb (k_mode a) "pydirectinput"
           then key_pydirectinput a
           else key_postmessage a);
  ret (key_result (k_mode a) (k_key a) (k_action a) (k_repeat a)).

(** ** Dispatch of a tool call *)

Definition _handle_call (name : string) (args : json) : M json :=
  let args := match args with JNull => JObj [] | _ => args end in
  match args with
  | JObj d =>
      if String.eqb name "capture" then _tool_capture d
      else if String.eqb name "click" then _tool_click d
      else if String.eqb name "key" then _tool_key d
      else if String.eqb name "wait" then _tool_wait d
      else raise (ValueError ("unknown tool: " ++ name))
  | _ => raise (ValueError "arguments must be an object")
  end.
End Server.

(** ** The protocol engine *)

(** What the process does, in order: the effects of the tools and the
    lines written to standard output.  A line is recorded as the JSON value
    [_write] serialises. *)
Inductive event : Type :=
| Eff (e : effect)
| Out (payload : json).

Definition _write (obj : json) : list event := [Out obj].

Definition _error (id_ : json) (code : Z) (message : string) (data : json)
  : list event :=
  let error := [("code", JInt code); ("message", JStr message)] in
  let error :=
    match data with JNull => error | _ => (error ++ [("data", data)])%list end in
  _write (JObj [("jsonrpc", JStr "2.0"); ("id", id_); ("error", JObj error)]).

Definition _result (id_ : json) (result : json) : list event :=
  _write (JObj [("jsonrpc", JStr "2.0"); ("id", id_); ("result", result)]).

Definition _notify (method : string) (params : json) : list event :=
  let payload := [("jsonrpc", JStr "2.0"); ("method", JStr method)] in
  let payload :=
    match params with JNull => payload | _ => (payload ++ [("params", params)])%list end in
  _write (JObj payload).

(** The pieces of the tool catalog. *)
Definition schema_string : json := JObj [("type", JStr "string")].

Definition schema_enum (values : list string) (default : string) : json :=
  JObj [("type", JStr "string"); ("enum", JArr (map JStr values));
        ("default", JStr default)].

Definition schema_boolean (default : bool) : json :=
  JObj [("type", JStr "boolean"); ("default", JBool default)].

Definition schema_integer (minimum maximum default : Z) : json :=
  JObj [("type", JStr "integer"); ("minimum", JInt minimum);
        ("maximum", JInt maximum); ("default", JInt default)].

Definition schema_number (minimum maximum : Z) : json :=
  JObj [("type", JStr "number"); ("minimum", JInt minimum);
        ("maximum", JInt maximum)].

Definition tool_entry (name description : string) (required : list string)
           (properties : dict) : json :=
  JObj ([("name", JStr name); ("description", JStr description);
         ("inputSchema", JObj
            ([("type", JStr "object"); ("additionalProperties", JBool false)]
             ++ match required with
                | [] => []
                | _ => [("required", JArr (map JStr required))]
                end
             ++ [("properties", JObj properties)]))])%list.

Definition _tool_list : json :=
  JObj [("tools", JArr
    [ tool_entry "capture"
        "Capture a screenshot (window client area by default). Returns an image for the LLM to see."
        []
        [ ("target", schema_enum ["window"; "screen"] "window");
          ("hwnd_class", schema_string);
          ("title_contains", schema_string);
          ("include_window_frame", schema_boolean false);
          ("format", schema_enum ["jpeg"; "png"] "jpeg");
          ("quality", schema_integer 1 95 65);
          ("max_width", schema_integer 64 4096 1280);
          ("max_height", schema_integer 64 4096 720) ];
      tool_entry "click"
        "Click at normalized coordinates (x,y in [0..1]) relative to the target (window client area by default)."
        ["x"; "y"]
        [ ("target", schema_enum ["window"; "screen"] "window");
          ("hwnd_class", schema_string);
          ("title_contains", schema_string);
          ("include_window_frame", schema_boolean false);
          ("mode", schema_enum ["postmessage"; "pydirectinput"] "postmessage");
          ("x", schema_number 0 1);
          ("y", schema_number 0 1);
          ("button", schema_enum ["left"; "right"; "middle"] "left");
          ("clicks", schema_integer 1 10 1);
          ("interval_ms", schema_integer 0 5000 60) ];
      tool_entry "key"
        "Send a key to the target window (default postmessage)."
        ["key"]
        [ ("hwnd_class", schema_string);
          ("title_contains", schema_string);
          ("mode", schema_enum ["postmessage"; "pydirectinput"] "postmessage");
          ("key", schema_string);
          ("action", schema_enum ["press"; "down"; "up"] "press");
          ("repeat", schema_integer 1 50 1);
          ("interval_ms", schema_integer 0 5000 35) ];
      tool_entry "wait"
        "Sleep for the specified duration."
        []
        [ ("ms", schema_integer 0 600000 250) ] ])].

(** [v == s] for a string literal [s] *)
Definition eq_str (v : json) (s : string) : bool :=
  match v with JStr s' => String.eqb s' s | _ => false end.

(** [v.get(k)] on a value that is expected to be a [dict] *)
Definition attr_get (v : json) (k : string) : result json :=
  match v with
  | JObj d => Ok (dict_get d k)
  | _ => Raise (AttributeError v "get")
  end.

Definition is_none (v : json) : bool :=
  match v with JNull => true | _ => false end.

Section Protocol.
Variable rt : Runtime.

Definition initialize_result (client_version : json) : json :=
  JObj
    [("protocolVersion", client_version);
     ("capabilities", JObj
        [("tools", JObj [("listChanged", JBool false)]);
         ("resources", JObj [("subscribe", JBool false); ("listChanged", JBool false)]);
         ("prompts", JObj [("listChanged", JBool false)])]);
     ("serverInfo", JObj [("name", JStr "ok-ww-mcp"); ("version", JStr "0.1.0")])].

(** The [try] block of the [tools/call] branch, up to the call. *)
Definition tools_call_body (w : World) (params : json) : M json :=
  do name <- lift (attr_get params "name");
  do arguments <- lift (attr_get params "arguments");
  match name with
  | JStr s =>
      if negb (String.eqb s "")
      then _handle_call rt w s arguments
      else raise (ValueError "params.name is required")
  | _ => raise (ValueError "params.name is required")
  end.

(** The events of one call, and [Raise e] when the exception [e] leaves
    [_handle_request]. *)
Definition _handle_request (w : World) (req : dict) : list event * result unit :=
  if negb (dict_mem req "method") then ([], Ok tt) else
  let method := dict_get req "method" in
  let id_ := dict_get req "id" in
  let params := py_or (dict_get req "params") (JObj []) in
  if eq_str method "initialize" then
    match attr_get params "protocolVersion" with
    | Raise e => ([], Raise e)
    | Ok v =>
        let client_version := py_or v (JStr MCP_PROTOCOL_VERSION) in
        (_result id_ (initialize_result client_version), Ok tt)
    end
  else if eq_str method "initialized" || eq_str method "notifications/initialized"
  then ([], Ok tt)
  else if eq_str method "tools/list" then (_result id_ _tool_list, Ok tt)
  else if eq_str method "resources/list"
  then (_result id_ (JObj [("resources", JArr [])]), Ok tt)
  else if eq_str method "prompts/list"
  then (_result id_ (JObj [("prompts", JArr [])]), Ok tt)
  else if eq_str method "tools/call" then
    match tools_call_body w params with
    | (effs, Ok result) => ((map Eff effs ++ _result id_ result)%list, Ok tt)
    | (effs, Raise e) =>
        ((map Eff effs ++ _error id_ (-32000) (exn_str e) JNull)%list, Ok tt)
    end
  else if negb (is_none id_)
  then (_error id_ (-32601) ("Method not found: " ++ py_str rt method) JNull, Ok tt)
  else ([], Ok tt).

(** One iteration of the loop of [main] on a raw line, handled while the
    desktop is in state [w]. *)
Definition main_step (w : World) (raw_line : string) : list event :=
  match bytes_decode rt raw_line with
  | Raise _ => []
  | Ok text =>
      let line := strip text in
      if String.eqb line "" then [] else
      match json_loads rt line with
      | Raise _ => []
      | Ok (JObj req) => fst (_handle_request w req)
      | Ok _ => []
      end
  end.

(** [main] on an input stream that ends: every raw line comes with the
    state of the desktop at the time it is read. *)
Fixpoint main (stream : list (World * string)) : list event :=
  match stream with
  | [] => []
  | (w, raw_line) :: rest => (main_step w raw_line ++ main rest)%list
  end.
End Protocol.

(** ** A concrete runtime and a concrete desktop

    Used to run the model: a sound parser for the request lines below, and
    a desktop with a game window, its launcher and a few other windows. *)

Module Fixture.
Definition dq : string := String (ascii_of_nat 34) EmptyString.

(** A JSON text of a value whose strings need no escaping. *)
Fixpoint dumps (v : json) : string :=
  match v with
  | JNull => "null"
  | JBool true => "true"
  | JBool false => "false"
  | JInt n => str_of_Z n
  | JFloat q => fmt_4f q
  | JStr s => dq ++ s ++ dq
  | JArr items =>
      "[" ++ (fix go (l : list json) : string :=
                match l with
                | [] => ""
                | [x] => dumps x
                | x :: l' => dumps x ++ "," ++ go l'
                end) items ++ "]"
  | JObj fields =>
      "{" ++ (fix go (l : list (string * json)) : string :=
                match l with
                | [] => ""
                | [(k, x)] => dq ++ k ++ dq ++ ":" ++ dumps x
                | (k, x) :: l' => dq ++ k ++ dq ++ ":" ++ dumps x ++ "," ++ go l'
                end) fields ++ "}"
  end.

Definition request (id_ : json) (method : string) (params : list (string * json))
  : dict :=
  ([("jsonrpc", JStr "2.0")]
   ++ match id_ with JNull => [] | _ => [("id", id_)] end
   ++ [("method", JStr method)]
   ++ match params with [] => [] | _ => [("params", JObj params)] end)%list.

Definition call (id_ : json) (tool : string) (args : list (string * json)) : dict :=
  request id_ "tools/call" [("name", JStr tool); ("arguments", JObj args)].

Definition req_initialized_with_id : dict := request (JInt 1) "initialized" [].
Definition req_initialize_empty_version : dict :=
  request (JInt 2) "initialize" [("protocolVersion", JStr "")].
Definition req_initialize : dict :=
  request (JInt 3) "initialize" [("protocolVersion", JStr "2025-03-26")].
Definition req_wait_0 : dict := call (JInt 4) "wait" [("ms", JInt 0)].
Definition req_click_out_of_range : dict :=
  call (JInt 5) "click"
    [("target", JStr "screen"); ("mode", JStr "pydirectinput");
     ("x", JFloat (3 # 2)); ("y", JFloat (1 # 2))].
Definition req_unknown_tool_bad_arguments : dict :=
  request (JInt 6) "tools/call" [("name", JStr "bogus"); ("arguments", JArr [JInt 1])].
Definition req_unknown_tool : dict := call (JInt 7) "bogus" [].
Definition req_tools_list : dict := request (JInt 8) "tools/list" [].

Definition known_requests : list dict :=
  [ req_initialized_with_id; req_initialize_empty_version; req_initialize;
    req_wait_0; req_click_out_of_range; req_unknown_tool_bad_arguments;
    req_unknown_tool; req_tools_list ].

(** Parses exactly the serialisations of [known_requests]. *)
Definition loads (line : string) : result json :=
  match find (fun r => String.eqb (dumps (JObj r)) line) known_requests with
  | Some r => Ok (JObj r)
  | None => Raise (Exn "JSONDecodeError" "Expecting value")
  end.

Definition rt : Runtime :=
  {| bytes_decode := fun raw => Ok raw;
     json_loads := loads;
     float_of_str := fun s =>
       Raise (ValueError ("could not convert string to float: '" ++ s ++ "'"));
     py_repr := fun v => match v with JStr s => "'" ++ s ++ "'" | _ => dumps v end;
     b64encode := fun b => b |}.

Definition os_error (fn : string) : exn := Exn "error" ("(1400, '" ++ fn ++ "', 'Invalid window handle.')").

(** handle, class, title, window rectangle, visible *)
Definition windows : list (Z * (string * string * rect * bool)) :=
  [ (11, ("Progman", "Program Manager", (0, 0, 1920, 1080), false));
    (22, ("UnrealWindow", "Wuthering Waves  ", (100, 50, 1380, 770), true));
    (33, ("UnrealWindow", "Wuthering Waves Launcher", (200, 200, 840, 560), true));
    (44, ("Notepad", "notes.txt", (0, 0, 1280, 720), true));
    (55, ("UnrealWindow", "Wuthering Waves  ", (300, 300, 1580, 1020), true));
    (77, ("Notepad", "minimized.txt", (-32000, -32000, -32000, -32000), true)) ].

Fixpoint window (l : list (Z * (string * string * rect * bool))) (hwnd : Z)
  : option (string * string * rect * bool) :=
  match l with
  | [] => None
  | (h, d) :: l' => if h =? hwnd then Some d else window l' hwnd
  end.

Definition query {A} (fn : string) (hwnd : Z)
           (f : string * string * rect * bool -> A) : result A :=
  match window windows hwnd with
  | Some d => Ok (f d)
  | None => Raise (os_error fn)
  end.

Definition desk : World :=
  {| ok_config := Ok (JObj [("windows", JObj [("hwnd_class", JStr "UnrealWindow")])]);
     has_win32gui := true;
     has_win32api := true;
     has_win32con := true;
     has_pydirectinput := true;
     has_PIL := true;
     win32gui_EnumWindows := Ok [11; 22; 33; 66; 44; 55; 77];
     win32gui_IsWindow := fun h => Ok (match window windows h with Some _ => true | None => false end);
     win32gui_IsWindowVisible := fun h => query "IsWindowVisible" h (fun '(_, _, _, v) => v);
     win32gui_GetClassName := fun h => query "GetClassName" h (fun '(c, _, _, _) => c);
     win32gui_GetWindowText := fun h => query "GetWindowText" h (fun '(_, t, _, _) => t);
     win32gui_GetWindowRect := fun h => query "GetWindowRect" h (fun '(_, _, r, _) => r);
     win32gui_GetClientRect := fun h =>
       query "GetClientRect" h (fun '(_, _, (l, t, r, b), _) => (0, 0, r - l, b - t));
     win32gui_ClientToScreen := fun h '(x, y) =>
       query "ClientToScreen" h (fun '(_, _, (l, t, _, _), _) => (l + x, t + y));
     win32gui_ScreenToClient := fun h '(x, y) =>
       query "ScreenToClient" h (fun '(_, _, (l, t, _, _), _) => (x - l, y - t));
     win32api_GetSystemMetrics := fun i =>
       if i =? 0 then Ok 1920 else if i =? 1 then Ok 1080 else Ok 0;
     win32api_VkKeyScan := fun s =>
       if String.eqb s "-" then Ok 189 else if String.eqb s "!" then Ok 305 else Ok (-1);
     win32api_PostMessage := fun _ _ _ _ => Ok tt;
     pydirectinput_moveTo := fun _ _ => Ok tt;
     pydirectinput_click := fun _ => Ok tt;
     pydirectinput_keyDown := fun _ => Ok tt;
     pydirectinput_keyUp := fun _ => Ok tt;
     pydirectinput_press := fun _ => Ok tt;
     ImageGrab_grab := fun '(l, t, r, b) =>
       Ok {| img_width := r - l; img_height := b - t; img_mode := "RGB"; img_data := "" |};
     Image_thumbnail := fun img _ _ => Ok img;
     Image_convert := fun img _ => Ok img;
     Image_save := fun _ _ _ => Ok "" |}.

(** The same desktop when the display metrics cannot be queried. *)
Definition desk_no_metrics : World :=
  {| ok_config := ok_config desk;
     has_win32gui := true;
     has_win32api := true;
     has_win32con := true;
     has_pydirectinput := true;
     has_PIL := true;
     win32gui_EnumWindows := win32gui_EnumWindows desk;
     win32gui_IsWindow := win32gui_IsWindow desk;
     win32gui_IsWindowVisible := win32gui_IsWindowVisible desk;
     win32gui_GetClassName := win32gui_GetClassName desk;
     win32gui_GetWindowText := win32gui_GetWindowText desk;
     win32gui_GetWindowRect := win32gui_GetWindowRect desk;
     win32gui_GetClientRect := win32gui_GetClientRect desk;
     win32gui_ClientToScreen := win32gui_ClientToScreen desk;
     win32gui_ScreenToClient := win32gui_ScreenToClient desk;
     win32api_GetSystemMetrics := fun _ => Raise (os_error "GetSystemMetrics");
     win32api_VkKeyScan := win32api_VkKeyScan desk;
     win32api_PostMessage := win32api_PostMessage desk;
     pydirectinput_moveTo := pydirectinput_moveTo desk;
     pydirectinput_click := pydirectinput_click desk;
     pydirectinput_keyDown := pydirectinput_keyDown desk;
     pydirectinput_keyUp := pydirectinput_keyUp desk;
     pydirectinput_press := pydirectinput_press desk;
     ImageGrab_grab := ImageGrab_grab desk;
     Image_thumbnail := Image_thumbnail desk;
     Image_convert := Image_convert desk;
     Image_save := Image_save desk |}.
End Fixture.

(** * The vocabulary of the properties

    The notions the statements below are written with, and the inputs on
    which they are run. *)

(** The primary display's width and height, when both can be queried. *)
Definition display_metrics (w : World) : option (Z * Z) :=
  if has_win32api w then
    match win32api_GetSystemMetrics w 0, win32api_GetSystemMetrics w 1 with
    | Ok width, Ok height => Some (width, height)
    | _, _ => None
    end
  else None.

(** The rectangle of the primary display, or the fixed one. *)
Definition screen_rect (w : World) : rect :=
  match display_metrics w with
  | Some (width, height) => (0, 0, width, height)
  | None => (0, 0, 1920, 1080)
  end.









(** The lines written and the effects performed, out of a sequence of
    events. *)
Definition outputs (tr : list event) : list json :=
  flat_map (fun e => match e with Out p => [p] | Eff _ => [] end) tr.



(** The sleeps of a trace. *)
Definition is_sleep (e : effect) : bool :=
  match e with Sleep _ => true | _ => false end.

Definition sleeps (tr : list effect) : list effect := filter is_sleep tr.


(** [n] repetitions of the effects [unit_tr], with a sleep of [ms] between
    consecutive ones. *)
Fixpoint repeat_with_pauses (unit_tr : list effect) (ms : Z) (n : nat)
  : list effect :=
  match n with
  | O => []
  | S O => unit_tr
  | S n' => (unit_tr ++ Sleep ms :: repeat_with_pauses unit_tr ms n')%list
  end.

(** Repeated clicks and key presses with an interval of 0. *)
Definition args_click_thrice : dict :=
  [("x", JInt 1); ("y", JInt 0); ("clicks", JInt 3); ("interval_ms", JInt 0)].


Definition args_key_twice : dict :=
  [("key", JStr "F5"); ("repeat", JInt 2); ("interval_ms", JInt 0)].


(** The filters of a target that are set: a filter that is absent or empty
    is not applied. *)
Definition class_filter (t : WindowTarget) : option string :=
  match hwnd_class t with
  | Some c => if String.eqb c "" then None else Some c
  | None => None
  end.

Definition title_filter (t : WindowTarget) : option string :=
  match title_contains t with
  | JStr s => if String.eqb s "" then None else Some s
  | _ => None
  end.

(** A candidate is a visible window whose class name is the class filter
    and whose title contains the title filter, case ignored; every query
    made on it has to succeed. *)
Definition is_candidate (w : World) (t : WindowTarget) (h : Z) : Prop :=
  win32gui_IsWindow w h = Ok true
  /\ win32gui_IsWindowVisible w h = Ok true
  /\ (forall c, class_filter t = Some c -> win32gui_GetClassName w h = Ok c)
  /\ (forall s, title_filter t = Some s ->
      exists title, win32gui_GetWindowText w h = Ok title
                    /\ str_in (lower s) (lower title) = true).

(** The title filter is what the dataclass declares: [None] or a [str]. *)
Definition well_typed (t : WindowTarget) : Prop :=
  title_contains t = JNull \/ exists s, title_contains t = JStr s.

(** The game window, by class and by a part of its title. *)
Definition target_game : WindowTarget :=
  {| hwnd_class := Some "UnrealWindow"; title_contains := JStr "WAVES";
     include_window_frame := false |}.

(** The four tiers, each on its own; [key] is the name stripped and in
    lower case.  Tier 1: the fixed alias table. *)
Definition tier_alias (key : string) : option Z := win32con.lookup special key.

(** Tier 2: [f] followed by decimal digits whose value is from 1 to 24;
    the codes of F1 to F24 are consecutive from 112. *)
Definition tier_fkey (key : string) : option Z :=
  match key with
  | String c ds =>
      if Ascii.eqb c "f" && isdigit ds then
        match int_of_str ds with
        | Some n => if (1 <=? n) && (n <=? 24) then Some (111 + n) else None
        | None => None
        end
      else None
  | EmptyString => None
  end.

(** Tier 3: one alphanumeric character, by the code point of its upper
    case. *)
Definition tier_char (key : string) : option Z :=
  match key with
  | String c EmptyString =>
      if is_alnum c then Some (Z.of_N (N_of_ascii (upper_char c))) else None
  | _ => None
  end.

(** Tier 4: the platform's key-scan lookup, which answers -1 when it knows
    no key for the name. *)
Definition tier_scan (w : World) (key : string) : result (option Z) :=
  let? v := win32api_VkKeyScan w key in
  Ok (if v =? -1 then None else Some (Z.land v 255)).

(** The answer of the first tier that knows the key, and the error when
    none does. *)
Definition first_tier (w : World) (name : string) : result Z :=
  let key := lower (strip name) in
  match tier_alias key with
  | Some vk => Ok vk
  | None =>
      match tier_fkey key with
      | Some vk => Ok vk
      | None =>
          match tier_char key with
          | Some vk => Ok vk
          | None =>
              let? found := tier_scan w key in
              match found with
              | Some vk => Ok vk
              | None => Raise (ValueError ("Unsupported key: " ++ name))
              end
          end
      end
  end.










(** * The vocabulary of the further properties *)

(** A string that [strip] leaves as it is. *)
Definition stripped (s : string) : Prop := strip s = s.

(** Empty, or starting with a character that is not white space. *)
Definition no_leading_space (s : string) : Prop :=
  match s with
  | EmptyString => True
  | String c _ => is_space c = false
  end.

(** The desktop [w] with another configuration module. *)
Definition with_config (w : World) (cfg : result json) : World :=
  {| ok_config := cfg;
     has_win32gui := has_win32gui w;
     has_win32api := has_win32api w;
     has_win32con := has_win32con w;
     has_pydirectinput := has_pydirectinput w;
     has_PIL := has_PIL w;
     win32gui_EnumWindows := win32gui_EnumWindows w;
     win32gui_IsWindow := win32gui_IsWindow w;
     win32gui_IsWindowVisible := win32gui_IsWindowVisible w;
     win32gui_GetClassName := win32gui_GetClassName w;
     win32gui_GetWindowText := win32gui_GetWindowText w;
     win32gui_GetWindowRect := win32gui_GetWindowRect w;
     win32gui_GetClientRect := win32gui_GetClientRect w;
     win32gui_ClientToScreen := win32gui_ClientToScreen w;
     win32gui_ScreenToClient := win32gui_ScreenToClient w;
     win32api_GetSystemMetrics := win32api_GetSystemMetrics w;
     win32api_VkKeyScan := win32api_VkKeyScan w;
     win32api_PostMessage := win32api_PostMessage w;
     pydirectinput_moveTo := pydirectinput_moveTo w;
     pydirectinput_click := pydirectinput_click w;
     pydirectinput_keyDown := pydirectinput_keyDown w;
     pydirectinput_keyUp := pydirectinput_keyUp w;
     pydirectinput_press := pydirectinput_press w;
     ImageGrab_grab := ImageGrab_grab w;
     Image_thumbnail := Image_thumbnail w;
     Image_convert := Image_convert w;
     Image_save := Image_save w |}.

(** The game windows, by class alone. *)
Definition target_unreal : WindowTarget :=
  {| hwnd_class := Some "UnrealWindow"; title_contains := JNull;
     include_window_frame := false |}.

(** A target whose title filter is an array. *)
Definition target_array_title : WindowTarget :=
  {| hwnd_class := Some "UnrealWindow"; title_contains := JArr [JStr "Waves"];
     include_window_frame := false |}.

(** A capture of the screen and a click on it, with the locals read from
    their arguments. *)
Definition args_capture_screen : dict := [("target", JStr "screen")].

Definition args_click_screen : dict :=
  [("target", JStr "screen"); ("x", JFloat (1 # 2)); ("y", JFloat (1 # 2))].

Definition locals_capture_screen : capture_locals :=
  {| p_target := "screen"; p_fmt := "jpeg"; p_quality := 65;
     p_max_width := 1280; p_max_height := 720; p_window := target_unreal |}.

Definition locals_click_screen : click_locals :=
  {| c_target := "screen"; c_mode := "postmessage"; c_button := "left";
     c_clicks := 1; c_interval_ms := 60; c_x := 1 # 2; c_y := 1 # 2;
     c_window := target_unreal |}.

(** The desktop [w] once every window is gone. *)
Definition without_windows (w : World) : World :=
  {| ok_config := ok_config w;
     has_win32gui := has_win32gui w;
     has_win32api := has_win32api w;
     has_win32con := has_win32con w;
     has_pydirectinput := has_pydirectinput w;
     has_PIL := has_PIL w;
     win32gui_EnumWindows := Ok [];
     win32gui_IsWindow := win32gui_IsWindow w;
     win32gui_IsWindowVisible := win32gui_IsWindowVisible w;
     win32gui_GetClassName := win32gui_GetClassName w;
     win32gui_GetWindowText := win32gui_GetWindowText w;
     win32gui_GetWindowRect := win32gui_GetWindowRect w;
     win32gui_GetClientRect := win32gui_GetClientRect w;
     win32gui_ClientToScreen := win32gui_ClientToScreen w;
     win32gui_ScreenToClient := win32gui_ScreenToClient w;
     win32api_GetSystemMetrics := win32api_GetSystemMetrics w;
     win32api_VkKeyScan := win32api_VkKeyScan w;
     win32api_PostMessage := win32api_PostMessage w;
     pydirectinput_moveTo := pydirectinput_moveTo w;
     pydirectinput_click := pydirectinput_click w;
     pydirectinput_keyDown := pydirectinput_keyDown w;
     pydirectinput_keyUp := pydirectinput_keyUp w;
     pydirectinput_press := pydirectinput_press w;
     ImageGrab_grab := ImageGrab_grab w;
     Image_thumbnail := Image_thumbnail w;
     Image_convert := Image_convert w;
     Image_save := Image_save w |}.

(** [v[k]] on a value that is an object, for reading results. *)
Definition member (v : json) (k : string) : json :=
  match v with JObj d => dict_get d k | _ => JNull end.

(** Locals of a key call on the game window. *)
Definition locals_key (mode key action : string) (repeat interval_ms : Z)
  : key_locals :=
  {| k_mode := mode; k_key := key; k_action := action; k_repeat := repeat;
     k_interval_ms := interval_ms; k_window := target_unreal |}.

(** The packed coordinates of a mouse message: [cy] above the low word
    of [cx] (line 343). *)
Definition lparam_of (cx cy : Z) : Z := Z.lor (Z.shiftl cy 16) (Z.land cx 65535).

(** The messages and the button flag chosen for a button (lines 344-349). *)
Definition button_messages (button : string) : Z * Z * Z :=
  if String.eqb button "right"
  then (win32con.WM_RBUTTONDOWN, win32con.WM_RBUTTONUP, win32con.MK_RBUTTON)
  else if String.eqb button "middle"
  then (win32con.WM_MBUTTONDOWN, win32con.WM_MBUTTONUP, win32con.MK_MBUTTON)
  else (win32con.WM_LBUTTONDOWN, win32con.WM_LBUTTONUP, win32con.MK_LBUTTON).

(** The button pydirectinput is asked to click (lines 321-326). *)
Definition clicked_button (button : string) : string :=
  if String.eqb button "right" then "right"
  else if String.eqb button "middle" then "middle"
  else "left".

(** The messages one repetition of a key posts, by action (lines 462-465). *)
Definition key_messages (hwnd vk : Z) (action : string) : list effect :=
  ((if String.eqb action "press" || String.eqb action "down"
    then [PostMessage hwnd win32con.WM_KEYDOWN vk 0] else [])
   ++ (if String.eqb action "press" || String.eqb action "up"
       then [PostMessage hwnd win32con.WM_KEYUP vk 0] else []))%list.

(** The event of one repetition of a key through pydirectinput
    (lines 438-443). *)
Definition key_event (key action : string) : effect :=
  if String.eqb action "down" then PdiKeyDown key
  else if String.eqb action "up" then PdiKeyUp key
  else PdiPress key.

(** The names the catalog advertises. *)
Definition catalog_names (catalog : json) : list string :=
  match catalog with
  | JObj d =>
      match dict_get d "tools" with
      | JArr tools =>
          flat_map (fun t => match t with
                             | JObj e => match dict_get e "name" with
                                         | JStr n => [n]
                                         | _ => []
                                         end
                             | _ => []
                             end) tools
      | _ => []
      end
  | _ => []
  end.

(** A response to [id_] as the server writes them: a result, or an error
    with one of its two codes. *)
Definition server_response (id_ : json) (p : json) : Prop :=
  (exists result,
     p = JObj [("jsonrpc", JStr "2.0"); ("id", id_); ("result", result)])
  \/ (exists code message,
        (code = -32000 \/ code = -32601)
        /\ p = JObj [("jsonrpc", JStr "2.0"); ("id", id_);
                     ("error", JObj [("code", JInt code); ("message", JStr message)])]).

(** * Properties *)

(** ** The helpers on concrete values *)

Example str_of_Z_examples :
  str_of_Z 0 = "0" /\ str_of_Z 250 = "250" /\ str_of_Z (-32000) = "-32000".
Proof. repeat split. Qed.

Example int_of_str_examples :
  int_of_str " 12 " = Some 12 /\ int_of_str "-1_000" = Some (-1000) /\
  int_of_str "1__0" = None /\ int_of_str "" = None /\ int_of_str "_1" = None.
Proof. repeat split. Qed.

Example py_round_examples :
  py_round (1 # 2) = 0 /\ py_round (3 # 2) = 2 /\ py_round (5 # 2) = 2 /\
  py_round (- (1 # 2)) = 0 /\ py_round (- (3 # 2)) = -2 /\ py_round (7 # 4) = 2.
Proof. repeat split. Qed.

Example fmt_4f_examples :
  fmt_4f (3 # 2) = "1.5000" /\ fmt_4f 0 = "0.0000" /\ fmt_4f (1 # 3) = "0.3333" /\
  fmt_4f (- (1 # 8)) = "-0.1250".
Proof. repeat split. Qed.

Example string_examples :
  lower "Wuthering Waves" = "wuthering waves" /\ strip "  F5 " = "F5" /\
  str_in "wav" "wuthering waves" = true /\ str_in "" "" = true /\
  isdigit "12" = true /\ isdigit "" = false /\ upper "a" = "A".
Proof. repeat split. Qed.

(** ** Computations *)

Lemma bind_lift_ok {A B} (a : A) (k : A -> M B) : bind (lift (Ok a)) k = k a.
Proof. unfold bind, lift. destruct (k a); reflexivity. Qed.

Lemma bind_lift_raise {A B} (e : exn) (k : A -> M B) :
  bind (lift (Raise e)) k = ([], Raise e).
Proof. reflexivity. Qed.

Lemma bind_ret {A B} (a : A) (k : A -> M B) : bind (ret a) k = k a.
Proof. exact (bind_lift_ok a k). Qed.

Lemma bind_ok_inv {A B} (m : M A) (k : A -> M B) tr b :
  bind m k = (tr, Ok b) ->
  exists tr1 a tr2, m = (tr1, Ok a) /\ k a = (tr2, Ok b) /\ tr = (tr1 ++ tr2)%list.
Proof.
  unfold bind. destruct m as [tr1 [a | e]]; [| discriminate].
  destruct (k a) as [tr2 r] eqn:Hk. intros H. inversion H; subst.
  exists tr1, a, tr2. auto.
Qed.

Lemma lift_ok_inv {A} (r : result A) tr a : lift r = (tr, Ok a) -> r = Ok a /\ tr = [].
Proof. unfold lift. intros H. inversion H. auto. Qed.

(** ** Rounding *)





(** ** The shape of a click call *)

Lemma tool_click_eq (rt : Runtime) (w : World) (args : dict) a rc :
  click_locals_of rt w args = Ok a ->
  _get_capture_rect w (c_target a) (c_window a) = Ok rc ->
  _tool_click rt w args =
    (do _ <- click_dispatch w a (fst (to_screen rc (c_x a) (c_y a)))
                                (snd (to_screen rc (c_x a) (c_y a)));
     ret (click_result (c_target a) (c_mode a) (c_button a) (c_x a) (c_y a)
            (fst (to_screen rc (c_x a) (c_y a)))
            (snd (to_screen rc (c_x a) (c_y a))) rc (c_clicks a))).
Proof.
  intros Ha Hrc. unfold _tool_click.
  rewrite Ha, bind_lift_ok, Hrc, bind_lift_ok.
  destruct (to_screen rc (c_x a) (c_y a)); reflexivity.
Qed.

(** ** The screen rectangle *)

Lemma get_capture_rect_screen (w : World) (wt : WindowTarget) :
  _get_capture_rect w "screen" wt = Ok (screen_rect w).
Proof.
  unfold _get_capture_rect, screen_rect, display_metrics. simpl.
  destruct (has_win32api w); simpl; [| reflexivity].
  destruct (win32api_GetSystemMetrics w 0); simpl; [| reflexivity].
  destruct (win32api_GetSystemMetrics w 1); reflexivity.
Qed.

(** C8.  With target [screen] the rectangle is always resolved: it is
    [(0, 0, width, height)] when the display metrics can be queried and
    [(0, 0, 1920, 1080)] when the query fails.  A capture call with that
    target goes on to grab that rectangle and a click call maps its point
    in it; no failure of the query reaches the caller. *)
Theorem screen_rect_resolved (rt : Runtime) (w : World) :
  (forall wt, _get_capture_rect w "screen" wt = Ok (screen_rect w))
  /\ (forall width height, display_metrics w = Some (width, height) ->
                           screen_rect w = (0, 0, width, height))
  /\ (display_metrics w = None -> screen_rect w = (0, 0, 1920, 1080))
  /\ (forall args a,
        capture_locals_of rt w args = Ok a -> p_target a = "screen" ->
        _tool_capture rt w args = capture_rect rt w a (screen_rect w))
  /\ (forall args a,
        click_locals_of rt w args = Ok a -> c_target a = "screen" ->
        let p := to_screen (screen_rect w) (c_x a) (c_y a) in
        _tool_click rt w args =
          (do _ <- click_dispatch w a (fst p) (snd p);
           ret (click_result "screen" (c_mode a) (c_button a) (c_x a) (c_y a)
                  (fst p) (snd p) (screen_rect w) (c_clicks a)))).
Proof.
  split; [| split; [| split; [| split]]].
  - apply get_capture_rect_screen.
  - intros width height H. unfold screen_rect. rewrite H. reflexivity.
  - intros H. unfold screen_rect. rewrite H. reflexivity.
  - intros args a Ha Ht. unfold _tool_capture.
    rewrite Ha, bind_lift_ok, Ht, get_capture_rect_screen, bind_lift_ok.
    reflexivity.
  - intros args a Ha Ht p.
    pose proof (tool_click_eq rt w args a (screen_rect w) Ha) as H.
    rewrite Ht in H. rewrite (H (get_capture_rect_screen w _)). reflexivity.
Qed.

Lemma screen_rect_resolved_witness :
  _tool_click Fixture.rt Fixture.desk_no_metrics
    [("target", JStr "SCREEN"); ("mode", JStr "pydirectinput");
     ("x", JFloat (1 # 4)); ("y", JFloat (3 # 4))]
  = ([MoveTo 480 810; PdiClick "left"],
     Ok (click_result "screen" "pydirectinput" "left" (1 # 4) (3 # 4) 480 810
           (0, 0, 1920, 1080) 1)).
Proof.
  exact (proj2 (proj2 (proj2 (proj2
           (screen_rect_resolved Fixture.rt Fixture.desk_no_metrics))))
           [("target", JStr "SCREEN"); ("mode", JStr "pydirectinput");
            ("x", JFloat (1 # 4)); ("y", JFloat (3 # 4))]
           {| c_target := "screen"; c_mode := "pydirectinput"; c_button := "left";
              c_clicks := 1; c_interval_ms := 60; c_x := 1 # 4; c_y := 3 # 4;
              c_window := {| hwnd_class := Some "UnrealWindow";
                             title_contains := JNull;
                             include_window_frame := false |} |}
           eq_refl eq_refl).
Defined.

Example screen_rect_desk :
  _get_capture_rect Fixture.desk "screen"
    {| hwnd_class := None; title_contains := JNull; include_window_frame := false |}
  = Ok (0, 0, 1920, 1080)
  /\ display_metrics Fixture.desk = Some (1920, 1080).
Proof. split; reflexivity. Qed.

Example screen_rect_fallback :
  display_metrics Fixture.desk_no_metrics = None
  /\ _get_capture_rect Fixture.desk_no_metrics "screen"
       {| hwnd_class := None; title_contains := JNull; include_window_frame := false |}
     = Ok (0, 0, 1920, 1080).
Proof. split; reflexivity. Qed.

(** ** The click point *)





(** ** No range check on the click coordinates *)

Lemma rbind_ok_inv {A B} (r : result A) (k : A -> result B) (b : B) :
  rbind r k = Ok b -> exists a, r = Ok a /\ k a = Ok b.
Proof. destruct r as [a | e]; simpl; intros H; [eauto | discriminate]. Qed.

Ltac rbind_inv H :=
  let v := fresh "v" in
  let E := fresh "E" in
  apply rbind_ok_inv in H; destruct H as (v & E & H).





(** ** The pauses between repetitions *)

Lemma sleeps_app (t1 t2 : list effect) :
  sleeps (t1 ++ t2) = (sleeps t1 ++ sleeps t2)%list.
Proof. apply filter_app. Qed.

Lemma pause_eq (i count ms : Z) :
  pause i count ms =
    ((if (i + 1 <? count) && (ms >? 0) then [Sleep ms] else []), Ok tt).
Proof.
  unfold pause. destruct (i + 1 <? count); simpl; [| reflexivity].
  destruct (ms >? 0) eqn:E; [| reflexivity].
  unfold sleep_ms. replace (ms <? 0) with false by lia. reflexivity.
Qed.

Lemma perform_sleeps (ev : effect) (o : result unit) :
  is_sleep ev = false -> sleeps (fst (perform ev o)) = [].
Proof. intros H. destruct o; simpl; [rewrite H |]; reflexivity. Qed.

Lemma bind_assoc {A B C} (m : M A) (f : A -> M B) (g : B -> M C) :
  bind (bind m f) g = bind m (fun a => bind (f a) g).
Proof.
  destruct m as [t [a | e]]; simpl; [| reflexivity].
  destruct (f a) as [t' [b | e]]; simpl; [| reflexivity].
  destruct (g b) as [t'' r]. rewrite app_assoc. reflexivity.
Qed.















(** When every repetition succeeds with the same effects, the loop is
    these effects with a pause between consecutive repetitions. *)
Lemma loop_exact (body act : Z -> M unit) (count ms : Z) (unit_tr : list effect) :
  0 < ms ->
  (forall j, body j = (do _ <- act j; pause j count ms)) ->
  (forall j, act j = (unit_tr, Ok tt)) ->
  forall (n : nat) (i : Z),
    i + Z.of_nat n = count ->
    for_range n i body = (repeat_with_pauses unit_tr ms n, Ok tt).
Proof.
  intros Hms Hbody Hact. induction n as [| n IH]; intros i Hi; [reflexivity |].
  cbn [for_range]. rewrite Hbody, Hact, pause_eq.
  rewrite (IH (i + 1)) by lia.
  destruct n as [| n].
  - replace (i + 1 <? count) with false by lia.
    cbn. rewrite !app_nil_r. reflexivity.
  - replace (i + 1 <? count) with true by lia.
    replace (ms >? 0) with true by lia.
    cbn [andb bind]. cbn [repeat_with_pauses].
    rewrite <- app_assoc. reflexivity.
Qed.

Lemma for_in_range_exact (body act : Z -> M unit) (count ms : Z)
      (unit_tr : list effect) :
  0 < ms ->
  (forall j, body j = (do _ <- act j; pause j count ms)) ->
  (forall j, act j = (unit_tr, Ok tt)) ->
  for_in_range count body
  = (repeat_with_pauses unit_tr ms (Z.to_nat count), Ok tt).
Proof.
  intros Hms Hbody Hact. unfold for_in_range.
  destruct (Z.to_nat count) as [| n] eqn:En; [reflexivity |].
  apply (loop_exact body act count ms unit_tr Hms Hbody Hact). lia.
Qed.

(** With pydirectinput at hand and answering, a click call moves the
    cursor and then clicks [clicks] times, pausing between two clicks. *)
Lemma click_pydirectinput_trace (w : World) (px py : Z) (button : string)
      (clicks interval_ms : Z) :
  0 < interval_ms ->
  has_pydirectinput w = true ->
  pydirectinput_moveTo w px py = Ok tt ->
  (forall b, pydirectinput_click w b = Ok tt) ->
  exists b,
    click_pydirectinput w px py button clicks interval_ms
    = (MoveTo px py
         :: repeat_with_pauses [PdiClick b] interval_ms (Z.to_nat clicks),
       Ok tt).
Proof.
  intros Hms Hpdi Hmove Hclick. unfold click_pydirectinput.
  rewrite Hpdi, Hmove. cbn [negb perform].
  set (b := if String.eqb button "right" then "right"
            else if String.eqb button "middle" then "middle" else "left").
  exists b.
  rewrite (for_in_range_exact _ (fun _ => perform (PdiClick b) (pydirectinput_click w b))
             clicks interval_ms [PdiClick b] Hms).
  - reflexivity.
  - intros j. reflexivity.
  - intros j. rewrite Hclick. reflexivity.
Qed.

Example click_thrice_trace :
  fst (_tool_click Fixture.rt Fixture.desk args_click_thrice) =
    [ PostMessage 22 513 1 1280; PostMessage 22 514 0 1280; Sleep 60;
      PostMessage 22 513 1 1280; PostMessage 22 514 0 1280; Sleep 60;
      PostMessage 22 513 1 1280; PostMessage 22 514 0 1280 ].
Proof. reflexivity. Qed.

Example key_twice_trace :
  fst (_tool_key Fixture.rt Fixture.desk args_key_twice) =
    [ PostMessage 22 256 116 0; PostMessage 22 257 116 0; Sleep 35;
      PostMessage 22 256 116 0; PostMessage 22 257 116 0 ].
Proof. reflexivity. Qed.

Example wait_ten :
  _handle_request Fixture.rt Fixture.desk
    (Fixture.call (JInt 1) "wait" [("ms", JInt 10)])
  = ((map Eff [Sleep 10]
      ++ _result (JInt 1)
           (JObj [("content", JArr [text_item "wait ok: 10ms"]);
                  ("isError", JBool false);
                  ("metadata", JObj [("ms", JInt 10)])]))%list,
     Ok tt).
Proof. reflexivity. Qed.

(** ** Window resolution *)

Lemma enum_cb_of_candidate (w : World) (t : WindowTarget) (h : Z) :
  well_typed t -> is_candidate w t h -> enum_cb w t h = true.
Proof.
  intros Hty (Hw & Hv & Hc & Ht).
  unfold enum_cb, enum_cb_body. rewrite Hw, Hv. cbn [rbind negb].
  assert (Hclass :
    match hwnd_class t with
    | Some c =>
        if negb (String.eqb c "")
        then let? cn := win32gui_GetClassName w h in Ok (String.eqb cn c)
        else Ok true
    | None => Ok true
    end = Ok true).
  { unfold class_filter in Hc. destruct (hwnd_class t) as [c |]; [| reflexivity].
    destruct (String.eqb c ""); [reflexivity |]. cbn [negb].
    rewrite (Hc c eq_refl). cbn [rbind]. rewrite String.eqb_refl. reflexivity. }
  rewrite Hclass. cbn [rbind negb].
  unfold title_filter in Ht.
  destruct Hty as [E | [s E]]; rewrite E in *; [reflexivity |].
  cbn [truthy]. destruct (String.eqb s ""); [reflexivity |]. cbn [negb].
  destruct (Ht s eq_refl) as (title & Htitle & Hin).
  rewrite Htitle. cbn. rewrite Hin. reflexivity.
Qed.

Lemma candidate_of_enum_cb (w : World) (t : WindowTarget) (h : Z) :
  enum_cb w t h = true -> is_candidate w t h.
Proof.
  unfold enum_cb, enum_cb_body, is_candidate, class_filter, title_filter.
  destruct (win32gui_IsWindow w h) as [[|] |]; cbn [rbind negb try_except];
    try discriminate.
  destruct (win32gui_IsWindowVisible w h) as [[|] |]; cbn [rbind negb try_except];
    try discriminate.
  intros H. split; [reflexivity |]. split; [reflexivity |].
  destruct (hwnd_class t) as [c |].
  - destruct (String.eqb c "") eqn:Ec; cbn [negb rbind] in H.
    + split; [discriminate |]. revert H.
      destruct (title_contains t) as [| | | | s | |]; cbn [truthy];
        try (intros _ s0 Hs; discriminate Hs).
      destruct (String.eqb s ""); cbn [negb]; [intros _ s0 Hs; discriminate Hs |].
      destruct (win32gui_GetWindowText w h) as [title |]; cbn; [| discriminate].
      intros H s0 Hs. inversion Hs; subst. eauto.
    + destruct (win32gui_GetClassName w h) as [cn |]; cbn [rbind] in H;
        [| discriminate].
      destruct (String.eqb_spec cn c) as [Ecn | Ecn]; cbn [negb rbind] in H;
        [| discriminate].
      split; [intros c0 Hc0; inversion Hc0; subst; reflexivity |]. revert H.
      destruct (title_contains t) as [| | | | s | |]; cbn [truthy];
        try (intros _ s0 Hs; discriminate Hs).
      destruct (String.eqb s ""); cbn [negb]; [intros _ s0 Hs; discriminate Hs |].
      destruct (win32gui_GetWindowText w h) as [title |]; cbn; [| discriminate].
      intros H s0 Hs. inversion Hs; subst. eauto.
  - cbn [rbind negb] in H.
    split; [discriminate |]. revert H.
    destruct (title_contains t) as [| | | | s | |]; cbn [truthy];
      try (intros _ s0 Hs; discriminate Hs).
    destruct (String.eqb s ""); cbn [negb]; [intros _ s0 Hs; discriminate Hs |].
    destruct (win32gui_GetWindowText w h) as [title |]; cbn; [| discriminate].
    intros H s0 Hs. inversion Hs; subst. eauto.
Qed.

Lemma max_from_split {A} (key : A -> Z) (l : list A) :
  forall (before : list A) (best : A) (mid : list A),
    (forall y, In y before -> key y < key best) ->
    (forall y, In y mid -> key y <= key best) ->
    exists before' after',
      (before ++ best :: mid ++ l)%list
      = (before' ++ max_from key best (key best) l :: after')%list
      /\ (forall y, In y before' -> key y < key (max_from key best (key best) l))
      /\ (forall y, In y after' -> key y <= key (max_from key best (key best) l)).
Proof.
  induction l as [| x l IH]; intros before best mid Hb Hm.
  - exists before, mid. rewrite app_nil_r. auto.
  - cbn [max_from]. destruct (key x >? key best) eqn:E.
    + destruct (IH (before ++ best :: mid)%list x []) as (b' & a' & Heq & Hb' & Ha').
      * intros y Hy. apply in_app_or in Hy. destruct Hy as [Hy | [Hy | Hy]].
        -- specialize (Hb y Hy). lia.
        -- subst y. lia.
        -- specialize (Hm y Hy). lia.
      * intros y [].
      * exists b', a'. split; [| auto].
        rewrite <- Heq, <- app_assoc. reflexivity.
    + destruct (IH before best (mid ++ [x])%list) as (b' & a' & Heq & Hb' & Ha').
      * exact Hb.
      * intros y Hy. apply in_app_or in Hy. destruct Hy as [Hy | [Hy | []]].
        -- exact (Hm y Hy).
        -- subst y. lia.
      * exists b', a'. split; [| auto].
        rewrite <- Heq, <- app_assoc. reflexivity.
Qed.

Lemma py_max_first_largest {A} (key : A -> Z) (l : list A) (m : A) :
  py_max key l = Some m ->
  exists before after,
    l = (before ++ m :: after)%list
    /\ (forall y, In y before -> key y < key m)
    /\ (forall y, In y after -> key y <= key m).
Proof.
  destruct l as [| x l]; [discriminate |].
  cbn [py_max]. intros H. inversion H; subst m; clear H.
  destruct (max_from_split key l [] x []) as (b & a & Heq & Hb & Ha);
    [intros y [] | intros y [] |].
  exists b, a. auto.
Qed.

Lemma find_window_eq (w : World) (t : WindowTarget) (hwnds : list Z) :
  has_win32gui w = true ->
  win32gui_EnumWindows w = Ok hwnds ->
  _find_window w t = py_max (area w) (filter (enum_cb w t) hwnds).
Proof.
  intros Hgui Henum. unfold _find_window. rewrite Hgui, Henum. cbn [negb].
  destruct (filter (enum_cb w t) hwnds); reflexivity.
Qed.

(** C4.  Given the windows [EnumWindows] reports, the candidates are the
    visible windows that pass the class filter (exact equality) and the
    title filter (substring, case ignored), a window on which a query
    raises being left out.  [_find_window] answers [None] exactly when
    there is no candidate, and otherwise the candidate of largest area,
    the first of them in enumeration order when several are that large.
    The area of a window is that of its bounding rectangle, and 0 when
    the rectangle cannot be queried. *)
Theorem find_window_resolution (w : World) (t : WindowTarget) (hwnds : list Z) :
  has_win32gui w = true ->
  win32gui_EnumWindows w = Ok hwnds ->
  well_typed t ->
  let candidates := filter (enum_cb w t) hwnds in
  (forall h, In h candidates <-> In h hwnds /\ is_candidate w t h)
  /\ (_find_window w t = None <-> candidates = [])
  /\ (forall h, _find_window w t = Some h ->
      exists before after,
        candidates = (before ++ h :: after)%list
        /\ (forall h', In h' before -> area w h' < area w h)
        /\ (forall h', In h' after -> area w h' <= area w h))
  /\ (forall h,
        area w h = match win32gui_GetWindowRect w h with
                   | Ok (l, t, r, b) => Z.max 0 (r - l) * Z.max 0 (b - t)
                   | Raise _ => 0
                   end).
Proof.
  intros Hgui Henum Hty candidates.
  pose proof (find_window_eq w t hwnds Hgui Henum) as Heq.
  fold candidates in Heq.
  split; [| split; [| split]].
  - intros h. unfold candidates. rewrite filter_In.
    split; intros [Hin Hc]; split; try exact Hin.
    + apply candidate_of_enum_cb, Hc.
    + apply enum_cb_of_candidate; assumption.
  - rewrite Heq. destruct candidates; cbn [py_max]; split; congruence.
  - intros h Hh. rewrite Heq in Hh. apply py_max_first_largest, Hh.
  - intros h. unfold area.
    destruct (win32gui_GetWindowRect w h) as [[[[l t'] r] b] |]; reflexivity.
Qed.

Example find_window_game :
  _find_window Fixture.desk target_game = Some 22
  /\ filter (enum_cb Fixture.desk target_game) [11; 22; 33; 66; 44; 55; 77]
     = [22; 33; 55]
  /\ map (area Fixture.desk) [22; 33; 55] = [921600; 230400; 921600].
Proof. repeat split. Qed.

Lemma find_window_resolution_witness :
  exists before after,
    filter (enum_cb Fixture.desk target_game) [11; 22; 33; 66; 44; 55; 77]
    = (before ++ 22 :: after)%list
    /\ (forall h', In h' before -> area Fixture.desk h' < area Fixture.desk 22)
    /\ (forall h', In h' after -> area Fixture.desk h' <= area Fixture.desk 22).
Proof.
  exact (proj1 (proj2 (proj2
           (find_window_resolution Fixture.desk target_game
              [11; 22; 33; 66; 44; 55; 77] eq_refl eq_refl
              (or_intror (ex_intro _ "WAVES" eq_refl)))))
           22 eq_refl).
Defined.

(** A filter that matches no window, and a title filter that is not a
    string, which no window passes. *)
Example find_window_none :
  _find_window Fixture.desk
    {| hwnd_class := Some "NoSuchClass"; title_contains := JNull;
       include_window_frame := false |} = None
  /\ _find_window Fixture.desk
       {| hwnd_class := None; title_contains := JInt 5;
          include_window_frame := false |} = None.
Proof. split; reflexivity. Qed.

(** ** Virtual-key resolution *)

Lemma is_digit_not_space (c : ascii) : is_digit c = true -> is_space c = false.
Proof.
  unfold is_digit, is_space, in_range. cbn.
  destruct (N_of_ascii c) as [| p]; [discriminate |].
  intros H. apply andb_true_iff in H. destruct H as [H1 H2].
  apply N.leb_le in H1, H2.
  apply orb_false_iff. split; apply andb_false_iff.
  - right. apply N.leb_gt. lia.
  - right. apply N.leb_gt. lia.
Qed.

Lemma digits_rstrip (s : string) :
  forall_char is_digit s = true -> rstrip s = s.
Proof.
  induction s as [| c s IH]; [reflexivity |].
  cbn [forall_char rstrip]. intros H. apply andb_true_iff in H.
  destruct H as [Hc Hs]. rewrite (IH Hs).
  destruct s; [| reflexivity].
  rewrite (is_digit_not_space c Hc). reflexivity.
Qed.

Lemma digits_strip (s : string) :
  forall_char is_digit s = true -> strip s = s.
Proof.
  intros H. unfold strip.
  replace (lstrip s) with s; [apply digits_rstrip, H |].
  destruct s as [| c s]; [reflexivity |]. cbn [lstrip forall_char] in *.
  apply andb_true_iff in H. destruct H as [Hc _].
  rewrite (is_digit_not_space c Hc). reflexivity.
Qed.

Lemma digits_value_total (s : string) :
  forall acc prev,
    forall_char is_digit s = true ->
    (s <> EmptyString \/ prev = true) ->
    exists n, digits_value acc prev s = Some n.
Proof.
  induction s as [| c s IH]; intros acc prev Hd Hne.
  - destruct Hne as [Hne | ->]; [contradiction | cbn; eauto].
  - cbn [forall_char] in Hd. apply andb_true_iff in Hd. destruct Hd as [Hc Hs].
    cbn [digits_value]. rewrite Hc. apply IH; auto.
Qed.

Lemma is_digit_not_sign (c : ascii) :
  is_digit c = true -> Ascii.eqb c "-" = false /\ Ascii.eqb c "+" = false.
Proof.
  intros H. split.
  - destruct (Ascii.eqb_spec c "-") as [-> |]; [discriminate H | reflexivity].
  - destruct (Ascii.eqb_spec c "+") as [-> |]; [discriminate H | reflexivity].
Qed.

(** On a string of digits [int] never raises. *)
Lemma int_of_digits (s : string) :
  isdigit s = true -> exists n, int_of_str s = Some n.
Proof.
  unfold isdigit. intros H. apply andb_true_iff in H. destruct H as [Hne Hd].
  unfold int_of_str. rewrite (digits_strip s Hd).
  destruct s as [| c s]; [discriminate |].
  assert (Hc : is_digit c = true).
  { cbn [forall_char] in Hd. apply andb_true_iff in Hd. tauto. }
  destruct (is_digit_not_sign c Hc) as [-> ->].
  apply digits_value_total; [exact Hd | left; discriminate].
Qed.

Lemma getattr_VK_F (n : Z) :
  1 <= n <= 24 -> win32con.getattr ("VK_F" ++ str_of_Z n) = Ok (111 + n).
Proof.
  intros H.
  assert (Hk : exists k, (k < 24)%nat /\ n = Z.of_nat k + 1).
  { exists (Z.to_nat (n - 1)). lia. }
  destruct Hk as (k & Hk & ->).
  do 24 (destruct k as [| k]; [reflexivity |]). lia.
Qed.

Lemma prefix_f (c : ascii) (s : string) :
  prefix "f" (String c s) = Ascii.eqb c "f".
Proof.
  cbn [prefix]. destruct (ascii_dec "f" c) as [<- | Hne].
  - rewrite Ascii.eqb_refl. destruct s; reflexivity.
  - destruct (Ascii.eqb_spec c "f") as [-> |]; [contradiction | reflexivity].
Qed.

Lemma vk_scan_lookup_tier (w : World) (name key : string) :
  vk_scan_lookup w name key =
    (let? found := tier_scan w key in
     match found with
     | Some vk => Ok vk
     | None => Raise (ValueError ("Unsupported key: " ++ name))
     end).
Proof.
  unfold vk_scan_lookup, tier_scan.
  destruct (win32api_VkKeyScan w key) as [v |]; cbn [rbind]; [| reflexivity].
  destruct (v =? -1); reflexivity.
Qed.

Lemma char_or_scan (w : World) (name key : string) :
  (if (String.length key =? 1)%nat && isalnum key
   then ord (upper key)
   else vk_scan_lookup w name key)
  = match tier_char key with
    | Some vk => Ok vk
    | None => vk_scan_lookup w name key
    end.
Proof.
  destruct key as [| c [| c' s]]; [reflexivity | | reflexivity].
  unfold isalnum, tier_char. cbn.
  destruct (is_alnum c); reflexivity.
Qed.

Lemma vk_from_key_eq (rt : Runtime) (w : World) (name : string) :
  has_win32con w = true -> has_win32api w = true ->
  _vk_from_key rt w name = first_tier w name.
Proof.
  intros Hcon Hapi. unfold _vk_from_key, first_tier, tier_alias.
  rewrite Hcon, Hapi. cbn [andb negb].
  set (key := lower (strip name)).
  destruct (win32con.lookup special key) as [vk |]; [reflexivity |].
  rewrite char_or_scan, vk_scan_lookup_tier.
  destruct key as [| c ds]; [reflexivity |].
  rewrite prefix_f. cbn [tail tier_fkey].
  destruct (Ascii.eqb c "f" && isdigit ds) eqn:E; [| reflexivity].
  apply andb_true_iff in E. destruct E as [_ Hd].
  destruct (int_of_digits ds Hd) as [n Hn]. rewrite Hn.
  destruct ((1 <=? n) && (n <=? 24)) eqn:Hrange; [| reflexivity].
  apply getattr_VK_F. lia.
Qed.



Example vk_from_key_examples :
  map (_vk_from_key Fixture.rt Fixture.desk)
      ["esc"; " F12 "; "F024"; "f25"; "f0"; "a"; "7"; "-"; "!"]
  = [ Ok 27; Ok 123; Ok 135;
      Raise (ValueError "Unsupported key: f25");
      Raise (ValueError "Unsupported key: f0");
      Ok 65; Ok 55; Ok 189; Ok 49 ].
Proof. reflexivity. Qed.

(** The first three tiers never know the same key: no alias is a function
    key name or a single character, and a function key name has at least
    two characters. *)
Lemma tiers_disjoint (key : string) :
  (forall vk, tier_fkey key = Some vk -> tier_alias key = None /\ tier_char key = None)
  /\ (forall vk, tier_char key = Some vk -> tier_alias key = None).
Proof.
  split.
  - intros vk H. destruct key as [| c ds]; [discriminate |].
    cbn [tier_fkey] in H.
    destruct (Ascii.eqb_spec c "f") as [-> | _]; [| discriminate].
    destruct (isdigit ds) eqn:Hd; [| discriminate].
    split.
    + unfold isdigit in Hd. destruct ds as [| d ds]; [discriminate |].
      cbn [forall_char negb andb String.eqb] in Hd.
      apply andb_true_iff in Hd. destruct Hd as [Hd _].
      unfold tier_alias, special. cbn -[is_digit].
      destruct (Ascii.eqb_spec "f" "f"); [| contradiction].
      reflexivity.
    + destruct ds; [discriminate | reflexivity].
  - intros vk H. destruct key as [| c [| c' s]]; try discriminate.
    unfold tier_alias, special. cbn.
    destruct c as [[] [] [] [] [] [] [] []]; reflexivity.
Qed.

(** ** The transport loop *)






Example blank_and_scalar_lines :
  main Fixture.rt [(Fixture.desk, "   "); (Fixture.desk, "")] = []
  /\ main_step
       {| bytes_decode := fun raw => Ok raw;
          json_loads := fun _ => Ok (JArr [JInt 1]);
          float_of_str := float_of_str Fixture.rt;
          py_repr := py_repr Fixture.rt;
          b64encode := b64encode Fixture.rt |}
       Fixture.desk "[1]" = [].
Proof. split; reflexivity. Qed.

(** ** The protocol engine *)


Lemma outputs_app (t1 t2 : list event) :
  outputs (t1 ++ t2) = (outputs t1 ++ outputs t2)%list.
Proof. apply flat_map_app. Qed.

Lemma outputs_effects (effs : list effect) : outputs (map Eff effs) = [].
Proof. induction effs as [| e effs IH]; [reflexivity | exact IH]. Qed.






(** An [initialize] whose [params] is a non-empty array is not answered:
    the [AttributeError] leaves [_handle_request] and the loop drops it. *)
Example initialize_params_array :
  _handle_request Fixture.rt Fixture.desk
    [("jsonrpc", JStr "2.0"); ("id", JInt 9); ("method", JStr "initialize");
     ("params", JArr [JInt 1])]
  = ([], Raise (AttributeError (JArr [JInt 1]) "get")).
Proof. reflexivity. Qed.








(** A tool that fails after it acted: the effects come first, then the
    error response. *)
Example click_fails_after_first_click :
  let w :=
    {| ok_config := ok_config Fixture.desk;
       has_win32gui := true; has_win32api := true; has_win32con := true;
       has_pydirectinput := true; has_PIL := true;
       win32gui_EnumWindows := win32gui_EnumWindows Fixture.desk;
       win32gui_IsWindow := win32gui_IsWindow Fixture.desk;
       win32gui_IsWindowVisible := win32gui_IsWindowVisible Fixture.desk;
       win32gui_GetClassName := win32gui_GetClassName Fixture.desk;
       win32gui_GetWindowText := win32gui_GetWindowText Fixture.desk;
       win32gui_GetWindowRect := win32gui_GetWindowRect Fixture.desk;
       win32gui_GetClientRect := win32gui_GetClientRect Fixture.desk;
       win32gui_ClientToScreen := win32gui_ClientToScreen Fixture.desk;
       win32gui_ScreenToClient := win32gui_ScreenToClient Fixture.desk;
       win32api_GetSystemMetrics := win32api_GetSystemMetrics Fixture.desk;
       win32api_VkKeyScan := win32api_VkKeyScan Fixture.desk;
       win32api_PostMessage := fun _ msg _ _ =>
         if msg =? win32con.WM_LBUTTONUP
         then Raise (Fixture.os_error "PostMessage") else Ok tt;
       pydirectinput_moveTo := pydirectinput_moveTo Fixture.desk;
       pydirectinput_click := pydirectinput_click Fixture.desk;
       pydirectinput_keyDown := pydirectinput_keyDown Fixture.desk;
       pydirectinput_keyUp := pydirectinput_keyUp Fixture.desk;
       pydirectinput_press := pydirectinput_press Fixture.desk;
       ImageGrab_grab := ImageGrab_grab Fixture.desk;
       Image_thumbnail := Image_thumbnail Fixture.desk;
       Image_convert := Image_convert Fixture.desk;
       Image_save := Image_save Fixture.desk |} in
  fst (_handle_request Fixture.rt w
         (Fixture.call (JInt 1) "click" [("x", JInt 0); ("y", JInt 0)]))
  = (map Eff [PostMessage 22 513 1 0]
     ++ _error (JInt 1) (-32000) "(1400, 'PostMessage', 'Invalid window handle.')"
          JNull)%list.
Proof. reflexivity. Qed.

(** ** One response per request *)



Lemma outputs_after_effects (effs : list effect) (out : list event) :
  outputs (map Eff effs ++ out) = outputs out.
Proof. rewrite outputs_app, outputs_effects. reflexivity. Qed.






Example unknown_method_and_notifications :
  fst (_handle_request Fixture.rt Fixture.desk (Fixture.request (JInt 1) "ping" []))
  = _error (JInt 1) (-32601) "Method not found: ping" JNull
  /\ _handle_request Fixture.rt Fixture.desk (Fixture.request JNull "ping" [])
     = ([], Ok tt)
  /\ _handle_request Fixture.rt Fixture.desk
       (Fixture.request JNull "notifications/initialized" [])
     = ([], Ok tt)
  /\ fst (_handle_request Fixture.rt Fixture.desk (Fixture.request JNull "tools/list" []))
     = _result JNull _tool_list.
Proof. repeat split. Qed.

(** * Further properties *)

(** ** The configured window class *)

Lemma rstrip_idempotent (s : string) : rstrip (rstrip s) = rstrip s.
Proof.
  induction s as [| c s IH]; [reflexivity |].
  cbn [rstrip]. destruct (rstrip s) as [| d r] eqn:E.
  - destruct (is_space c) eqn:Hc; [reflexivity |].
    cbn [rstrip]. rewrite Hc. reflexivity.
  - cbn [rstrip]. cbn [rstrip] in IH. rewrite IH. reflexivity.
Qed.

Lemma lstrip_no_leading_space (s : string) : no_leading_space (lstrip s).
Proof.
  induction s as [| c s IH]; [exact I |].
  cbn [lstrip]. destruct (is_space c) eqn:Hc; [exact IH | exact Hc].
Qed.

Lemma lstrip_fixed (s : string) : no_leading_space s -> lstrip s = s.
Proof. destruct s as [| c s]; [reflexivity |]. cbn. intros ->. reflexivity. Qed.

Lemma rstrip_no_leading_space (s : string) :
  no_leading_space s -> no_leading_space (rstrip s).
Proof.
  destruct s as [| c s]; [intros _; exact I |].
  cbn [no_leading_space rstrip]. intros Hc.
  destruct (rstrip s); [rewrite Hc |]; exact Hc.
Qed.

Lemma strip_idempotent (s : string) : strip (strip s) = strip s.
Proof.
  unfold strip.
  rewrite (lstrip_fixed (rstrip (lstrip s))).
  - apply rstrip_idempotent.
  - apply rstrip_no_leading_space, lstrip_no_leading_space.
Qed.

(** X1.  [_try_load_default_hwnd_class] answers [None] or a string that
    is not empty and has no white space around it, whatever the
    configuration holds and also when it cannot be imported. *)
Theorem default_hwnd_class_stripped (w : World) :
  _try_load_default_hwnd_class w = JNull
  \/ exists s, _try_load_default_hwnd_class w = JStr s /\ s <> "" /\ stripped s.
Proof.
  unfold _try_load_default_hwnd_class, try_except.
  destruct (ok_config w) as [cfg | e]; cbn [rbind]; [| left; reflexivity].
  destruct cfg as [| | | | | | d]; try (left; reflexivity).
  destruct (dict_get d "windows") as [| | | | | | d']; try (left; reflexivity).
  destruct (dict_get d' "hwnd_class") as [| | | | s | |]; try (left; reflexivity).
  destruct (String.eqb_spec (strip s) "") as [E | Hne]; cbn [negb];
    [left; reflexivity |].
  right. exists (strip s). repeat split; [exact Hne | apply strip_idempotent].
Qed.

Example default_hwnd_class_examples :
  _try_load_default_hwnd_class Fixture.desk = JStr "UnrealWindow"
  /\ _try_load_default_hwnd_class
       (with_config Fixture.desk
          (Ok (JObj [("windows", JObj [("hwnd_class", JStr "  UnrealWindow ")])])))
     = JStr "UnrealWindow"
  /\ _try_load_default_hwnd_class
       (with_config Fixture.desk
          (Ok (JObj [("windows", JObj [("hwnd_class", JStr "   ")])])))
     = JNull
  /\ _try_load_default_hwnd_class
       (with_config Fixture.desk
          (Raise (Exn "ModuleNotFoundError" "No module named 'config'")))
     = JNull.
Proof. repeat split. Qed.

(** ** The mapped point stays in the rectangle *)






(** ** What a click posts *)

Lemma lparam_words (cx cy : Z) :
  Z.land (lparam_of cx cy) 65535 = cx mod 65536
  /\ Z.shiftr (lparam_of cx cy) 16 = cy.
Proof.
  unfold lparam_of. change 65535 with (Z.ones 16). split.
  - rewrite Z.land_lor_distr_l, <- Z.land_assoc, Z.land_diag.
    rewrite !Z.land_ones by lia. rewrite Z.shiftl_mul_pow2 by lia.
    rewrite Z.mod_mul by lia. reflexivity.
  - rewrite Z.shiftr_lor, Z.shiftr_shiftl_l by lia.
    rewrite Z.land_ones by lia. rewrite (Z.shiftr_div_pow2 (cx mod 2 ^ 16)) by lia.
    rewrite Z.div_small by (apply Z.mod_pos_bound; lia).
    cbn [Z.sub Z.pos_sub Z.succ_double Z.opp]. rewrite Z.shiftl_0_r.
    apply Z.lor_0_r.
Qed.

(** X3.  In postmessage mode, with the window found, its client point
    [(cx, cy)] converted and every post accepted, a click call posts, for
    each of its [clicks], the down message with the button flag and then
    the up message with flag 0, all to the found window and all with the
    same packed point, and sleeps between two consecutive clicks only.
    The packed point holds [cx] modulo 65536 in its low word and [cy]
    above it.  A button that is neither [right] nor [middle] is the left
    one. *)
Theorem click_postmessage_exact (w : World) (t : WindowTarget) (px py : Z)
        (button : string) (clicks interval_ms hwnd cx cy : Z) :
  0 < interval_ms ->
  has_win32api w && has_win32con w && has_win32gui w = true ->
  _find_window w t = Some hwnd ->
  win32gui_ScreenToClient w hwnd (px, py) = Ok (cx, cy) ->
  (forall msg wparam lparam, win32api_PostMessage w hwnd msg wparam lparam = Ok tt) ->
  click_postmessage w t px py button clicks interval_ms
  = (repeat_with_pauses
       [ PostMessage hwnd (fst (fst (button_messages button)))
                     (snd (button_messages button)) (lparam_of cx cy);
         PostMessage hwnd (snd (fst (button_messages button))) 0 (lparam_of cx cy) ]
       interval_ms (Z.to_nat clicks),
     Ok tt)
  /\ Z.land (lparam_of cx cy) 65535 = cx mod 65536
  /\ Z.shiftr (lparam_of cx cy) 16 = cy
  /\ (String.eqb button "right" = false -> String.eqb button "middle" = false ->
      button_messages button
      = (win32con.WM_LBUTTONDOWN, win32con.WM_LBUTTONUP, win32con.MK_LBUTTON)).
Proof.
  intros Hms Hflags Hfind Hclient Hpost.
  split; [| split; [apply lparam_words | split; [apply lparam_words |]]].
  - unfold click_postmessage. rewrite Hflags, Hfind, Hclient. cbn [negb].
    rewrite bind_lift_ok. fold (lparam_of cx cy). unfold button_messages.
    destruct (String.eqb button "right");
      [| destruct (String.eqb button "middle")]; cbn [fst snd];
      (erewrite for_in_range_exact;
       [ reflexivity
       | exact Hms
       | intros j; rewrite <- bind_assoc; reflexivity
       | intros j; rewrite !Hpost; reflexivity ]).
  - intros Hr Hm. unfold button_messages. rewrite Hr, Hm. reflexivity.
Qed.

Lemma click_postmessage_exact_witness :
  click_postmessage Fixture.desk target_unreal 90 60 "x1" 2 60
  = ([ PostMessage 22 513 1 (lparam_of (-10) 10);
       PostMessage 22 514 0 (lparam_of (-10) 10);
       Sleep 60;
       PostMessage 22 513 1 (lparam_of (-10) 10);
       PostMessage 22 514 0 (lparam_of (-10) 10) ],
     Ok tt).
Proof.
  exact (proj1 (click_postmessage_exact Fixture.desk target_unreal 90 60 "x1" 2 60
                  22 (-10) 10 eq_refl eq_refl eq_refl eq_refl
                  (fun _ _ _ => eq_refl))).
Defined.

Example lparam_examples :
  lparam_of 1280 0 = 1280 /\ lparam_of 3 2 = 131075
  /\ lparam_of (-10) 10 = 720886 /\ 720886 mod 65536 = (-10) mod 65536.
Proof. repeat split. Qed.

(** X4.  Through pydirectinput, when the module is there and its calls
    return, a click call moves the cursor to the point once and then clicks
    [clicks] times, sleeping between two consecutive clicks only; a
    button that is neither [right] nor [middle] is clicked as [left]. *)
Theorem click_pydirectinput_exact (w : World) (px py : Z) (button : string)
        (clicks interval_ms : Z) :
  0 < interval_ms ->
  has_pydirectinput w = true ->
  pydirectinput_moveTo w px py = Ok tt ->
  pydirectinput_click w (clicked_button button) = Ok tt ->
  click_pydirectinput w px py button clicks interval_ms
  = (MoveTo px py
       :: repeat_with_pauses [PdiClick (clicked_button button)] interval_ms
            (Z.to_nat clicks),
     Ok tt)
  /\ (String.eqb button "right" = false -> String.eqb button "middle" = false ->
      clicked_button button = "left").
Proof.
  intros Hms Hpdi Hmove Hclick. split.
  - unfold click_pydirectinput. rewrite Hpdi, Hmove. cbn [negb perform].
    fold (clicked_button button).
    rewrite (for_in_range_exact _
               (fun _ => perform (PdiClick (clicked_button button))
                                 (pydirectinput_click w (clicked_button button)))
               clicks interval_ms [PdiClick (clicked_button button)] Hms).
    + reflexivity.
    + intros j. reflexivity.
    + intros j. rewrite Hclick. reflexivity.
  - intros Hr Hm. unfold clicked_button. rewrite Hr, Hm. reflexivity.
Qed.

Lemma click_pydirectinput_exact_witness :
  click_pydirectinput Fixture.desk 640 360 "double" 3 25
  = ([ MoveTo 640 360; PdiClick "left"; Sleep 25; PdiClick "left"; Sleep 25;
       PdiClick "left" ],
     Ok tt).
Proof.
  exact (proj1 (click_pydirectinput_exact Fixture.desk 640 360 "double" 3 25
                  eq_refl eq_refl eq_refl eq_refl)).
Defined.

(** ** What a key call sends *)

(** X5.  In postmessage mode, with the window found, the key resolved to
    [vk] and every post accepted, a key call posts per repetition the
    key-down message for [press] and [down] and then the key-up message
    for [press] and [up], and sleeps between two consecutive repetitions
    only.  An action that is none of the three posts nothing at all, and
    the call still completes. *)
Theorem key_postmessage_exact (rt : Runtime) (w : World) (a : key_locals)
        (hwnd vk : Z) :
  0 < k_interval_ms a ->
  has_win32api w && has_win32con w = true ->
  _find_window w (k_window a) = Some hwnd ->
  _vk_from_key rt w (k_key a) = Ok vk ->
  (forall msg, win32api_PostMessage w hwnd msg vk 0 = Ok tt) ->
  key_postmessage rt w a
  = (repeat_with_pauses (key_messages hwnd vk (k_action a)) (k_interval_ms a)
       (Z.to_nat (k_repeat a)),
     Ok tt)
  /\ (String.eqb (k_action a) "press" = false ->
      String.eqb (k_action a) "down" = false ->
      String.eqb (k_action a) "up" = false ->
      key_messages hwnd vk (k_action a) = []).
Proof.
  intros Hms Hflags Hfind Hvk Hpost. split.
  - unfold key_postmessage. rewrite Hflags, Hfind, Hvk. cbn [negb].
    rewrite bind_lift_ok.
    erewrite for_in_range_exact;
      [ reflexivity
      | exact Hms
      | intros j; rewrite <- bind_assoc; reflexivity
      | ].
    intros j. unfold key_messages.
    destruct (String.eqb (k_action a) "press" || String.eqb (k_action a) "down");
      destruct (String.eqb (k_action a) "press" || String.eqb (k_action a) "up");
      rewrite ?Hpost; reflexivity.
  - intros Hp Hd Hu. unfold key_messages. rewrite Hp, Hd, Hu. reflexivity.
Qed.

Lemma key_postmessage_exact_witness :
  key_postmessage Fixture.rt Fixture.desk (locals_key "postmessage" "esc" "tap" 3 35)
  = ([Sleep 35; Sleep 35], Ok tt).
Proof.
  exact (proj1 (key_postmessage_exact Fixture.rt Fixture.desk
                  (locals_key "postmessage" "esc" "tap" 3 35) 22 27
                  eq_refl eq_refl eq_refl eq_refl (fun _ => eq_refl))).
Defined.

Example key_postmessage_actions :
  fst (key_postmessage Fixture.rt Fixture.desk (locals_key "postmessage" "esc" "press" 2 35))
  = [PostMessage 22 256 27 0; PostMessage 22 257 27 0; Sleep 35;
     PostMessage 22 256 27 0; PostMessage 22 257 27 0]
  /\ fst (key_postmessage Fixture.rt Fixture.desk (locals_key "postmessage" "w" "down" 1 35))
     = [PostMessage 22 256 87 0]
  /\ fst (key_postmessage Fixture.rt Fixture.desk (locals_key "postmessage" "w" "up" 1 35))
     = [PostMessage 22 257 87 0].
Proof. repeat split. Qed.

(** X6.  Through pydirectinput a key call resolves no window and no
    virtual key: whatever the desktop and whether or not pywin32 is
    there, when the module's calls return it sends per repetition one
    key-down for [down], one key-up for [up] and one press for any other
    action, sleeping between two consecutive repetitions only. *)
Theorem key_pydirectinput_exact (rt : Runtime) (w : World) (args : dict)
        (a : key_locals) :
  key_locals_of rt w args = Ok a ->
  k_mode a = "pydirectinput" ->
  0 < k_interval_ms a ->
  has_pydirectinput w = true ->
  pydirectinput_keyDown w (k_key a) = Ok tt ->
  pydirectinput_keyUp w (k_key a) = Ok tt ->
  pydirectinput_press w (k_key a) = Ok tt ->
  _tool_key rt w args
  = (repeat_with_pauses [key_event (k_key a) (k_action a)] (k_interval_ms a)
       (Z.to_nat (k_repeat a)),
     Ok (key_result "pydirectinput" (k_key a) (k_action a) (k_repeat a))).
Proof.
  intros Ha Hmode Hms Hpdi Hdown Hup Hpress.
  assert (H : key_pydirectinput w a
              = (repeat_with_pauses [key_event (k_key a) (k_action a)]
                   (k_interval_ms a) (Z.to_nat (k_repeat a)), Ok tt)).
  { unfold key_pydirectinput. rewrite Hpdi. cbn [negb].
    erewrite for_in_range_exact;
      [ reflexivity | exact Hms | intros j; reflexivity | ].
    intros j. unfold key_event.
    destruct (String.eqb (k_action a) "down");
      [| destruct (String.eqb (k_action a) "up")];
      rewrite ?Hdown, ?Hup, ?Hpress; reflexivity. }
  unfold _tool_key. rewrite Ha, bind_lift_ok, Hmode, H.
  cbn. rewrite app_nil_r. reflexivity.
Qed.

Lemma key_pydirectinput_exact_witness :
  _tool_key Fixture.rt (with_config Fixture.desk_no_metrics (Raise (Exn "ImportError" "")))
    [("key", JStr "F5"); ("mode", JStr "PyDirectInput"); ("action", JStr "hold");
     ("repeat", JInt 2); ("hwnd_class", JStr "NoSuchClass")]
  = ([PdiPress "F5"; Sleep 35; PdiPress "F5"],
     Ok (key_result "pydirectinput" "F5" "hold" 2)).
Proof.
  exact (key_pydirectinput_exact Fixture.rt
           (with_config Fixture.desk_no_metrics (Raise (Exn "ImportError" "")))
           [("key", JStr "F5"); ("mode", JStr "PyDirectInput"); ("action", JStr "hold");
            ("repeat", JInt 2); ("hwnd_class", JStr "NoSuchClass")]
           {| k_mode := "pydirectinput"; k_key := "F5"; k_action := "hold";
              k_repeat := 2; k_interval_ms := 35;
              k_window := {| hwnd_class := Some "NoSuchClass"; title_contains := JNull;
                             include_window_frame := false |} |}
           eq_refl eq_refl eq_refl eq_refl eq_refl eq_refl eq_refl).
Defined.

(** ** Counts and intervals that are not positive *)

Lemma for_in_range_nonpositive (count : Z) (body : Z -> M unit) :
  count <= 0 -> for_in_range count body = ([], Ok tt).
Proof.
  intros H. unfold for_in_range. replace (Z.to_nat count) with O by lia. reflexivity.
Qed.

(** X7.  A count that is not positive repeats nothing: such a click call
    posts no message and clicks nowhere, it does at most move the cursor,
    and such a key call performs nothing. *)
Theorem nonpositive_count_injects_nothing (rt : Runtime) (w : World) (args : dict) :
  (forall a, click_locals_of rt w args = Ok a -> c_clicks a <= 0 ->
             fst (_tool_click rt w args) = []
             \/ exists px py, fst (_tool_click rt w args) = [MoveTo px py])
  /\ (forall a, key_locals_of rt w args = Ok a -> k_repeat a <= 0 ->
                fst (_tool_key rt w args) = []).
Proof.
  split.
  - intros a Ha Hc. unfold _tool_click. rewrite Ha, bind_lift_ok.
    destruct (_get_capture_rect w (c_target a) (c_window a)) as [rc | e];
      [rewrite bind_lift_ok | left; reflexivity].
    destruct (to_screen rc (c_x a) (c_y a)) as [px py].
    unfold click_dispatch.
    destruct (String.eqb (c_mode a) "pydirectinput").
    + unfold click_pydirectinput.
      destruct (has_pydirectinput w); cbn [negb]; [| left; reflexivity].
      rewrite (for_in_range_nonpositive _ _ Hc).
      destruct (pydirectinput_moveTo w px py) as [[] | e];
        [right; exists px, py; reflexivity | left; reflexivity].
    + unfold click_postmessage.
      destruct (has_win32api w && has_win32con w && has_win32gui w); cbn [negb];
        [| left; reflexivity].
      destruct (_find_window w (c_window a)) as [hwnd |]; [| left; reflexivity].
      destruct (win32gui_ScreenToClient w hwnd (px, py)) as [[cx cy] | e];
        [| left; reflexivity].
      rewrite bind_lift_ok.
      destruct (String.eqb (c_button a) "right");
        [| destruct (String.eqb (c_button a) "middle")];
        rewrite (for_in_range_nonpositive _ _ Hc); left; reflexivity.
  - intros a Ha Hr. unfold _tool_key. rewrite Ha, bind_lift_ok.
    destruct (String.eqb (k_mode a) "pydirectinput").
    + unfold key_pydirectinput.
      destruct (has_pydirectinput w); cbn [negb]; [| reflexivity].
      rewrite (for_in_range_nonpositive _ _ Hr). reflexivity.
    + unfold key_postmessage.
      destruct (has_win32api w && has_win32con w); cbn [negb]; [| reflexivity].
      destruct (_find_window w (k_window a)) as [hwnd |]; [| reflexivity].
      destruct (_vk_from_key rt w (k_key a)) as [vk | e]; [| reflexivity].
      rewrite bind_lift_ok, (for_in_range_nonpositive _ _ Hr). reflexivity.
Qed.

Lemma nonpositive_count_injects_nothing_witness :
  fst (_tool_key Fixture.rt Fixture.desk [("key", JStr "esc"); ("repeat", JInt (-2))])
  = [].
Proof.
  exact (proj2 (nonpositive_count_injects_nothing Fixture.rt Fixture.desk
                  [("key", JStr "esc"); ("repeat", JInt (-2))])
               (locals_key "postmessage" "esc" "press" (-2) 35) eq_refl
               ltac:(discriminate)).
Defined.

Example negative_clicks_reported :
  _tool_click Fixture.rt Fixture.desk
    [("x", JInt 0); ("y", JInt 0); ("clicks", JInt (-3)); ("mode", JStr "pydirectinput")]
  = ([MoveTo 100 50],
     Ok (click_result "window" "pydirectinput" "left" 0 0 100 50
           (100, 50, 1380, 770) (-3))).
Proof. reflexivity. Qed.

Lemma pause_nonpositive (i count ms : Z) : ms <= 0 -> pause i count ms = ([], Ok tt).
Proof.
  intros H. rewrite pause_eq. replace (ms >? 0) with false by lia.
  rewrite andb_false_r. reflexivity.
Qed.

Lemma loop_never_sleeps (body act : Z -> M unit) (count ms : Z) :
  ms <= 0 ->
  (forall j, body j = (do _ <- act j; pause j count ms)) ->
  (forall j, sleeps (fst (act j)) = []) ->
  forall (n : nat) (i : Z), sleeps (fst (for_range n i body)) = [].
Proof.
  intros Hms Hbody Hquiet. induction n as [| n IH]; intros i; [reflexivity |].
  cbn [for_range]. rewrite Hbody, (pause_nonpositive _ _ _ Hms).
  specialize (Hquiet i). specialize (IH (i + 1)).
  destruct (act i) as [t1 [[] | e]]; cbn [fst] in Hquiet; cbn [bind fst].
  - destruct (for_range n (i + 1) body) as [t2 r2]. cbn [fst] in *.
    rewrite !sleeps_app, Hquiet, IH. reflexivity.
  - exact Hquiet.
Qed.

(** X8.  An interval that is not positive is never slept: a click or key
    call whose [interval_ms] is negative performs no sleep at all, and
    does not fail on its account. *)
Theorem nonpositive_interval_never_sleeps (rt : Runtime) (w : World) (args : dict) :
  (forall a, click_locals_of rt w args = Ok a -> c_interval_ms a <= 0 ->
             sleeps (fst (_tool_click rt w args)) = [])
  /\ (forall a, key_locals_of rt w args = Ok a -> k_interval_ms a <= 0 ->
                sleeps (fst (_tool_key rt w args)) = []).
Proof.
  split.
  - intros a Ha Hms. unfold _tool_click. rewrite Ha, bind_lift_ok.
    destruct (_get_capture_rect w (c_target a) (c_window a)) as [rc | e];
      [rewrite bind_lift_ok | reflexivity].
    destruct (to_screen rc (c_x a) (c_y a)) as [px py].
    assert (H : sleeps (fst (click_dispatch w a px py)) = []).
    { unfold click_dispatch.
      destruct (String.eqb (c_mode a) "pydirectinput").
      - unfold click_pydirectinput.
        destruct (has_pydirectinput w); cbn [negb]; [| reflexivity].
        destruct (pydirectinput_moveTo w px py) as [[] | e]; [| reflexivity].
        cbn [perform bind].
        destruct (for_in_range (c_clicks a) _) as [tr r] eqn:Hloop.
        cbn [fst app sleeps filter is_sleep].
        change tr with (fst (tr, r)). rewrite <- Hloop. unfold for_in_range.
        refine (loop_never_sleeps _
                  (fun _ => perform (PdiClick _) (pydirectinput_click w _))
                  (c_clicks a) (c_interval_ms a) Hms _ _ _ _).
        + intros j. reflexivity.
        + intros j. apply perform_sleeps. reflexivity.
      - unfold click_postmessage.
        destruct (has_win32api w && has_win32con w && has_win32gui w); cbn [negb];
          [| reflexivity].
        destruct (_find_window w (c_window a)) as [hwnd |]; [| reflexivity].
        destruct (win32gui_ScreenToClient w hwnd (px, py)) as [[cx cy] | e];
          [| reflexivity].
        rewrite bind_lift_ok.
        destruct (String.eqb (c_button a) "right");
          [| destruct (String.eqb (c_button a) "middle")];
          (unfold for_in_range;
           refine (loop_never_sleeps _
                    (fun _ =>
                       do _ <- perform (PostMessage hwnd _ _ _)
                                       (win32api_PostMessage w hwnd _ _ _);
                       perform (PostMessage hwnd _ 0 _)
                               (win32api_PostMessage w hwnd _ 0 _))
                    (c_clicks a) (c_interval_ms a) Hms _ _ _ _);
           [ intros j; rewrite bind_assoc; reflexivity
           | intros j;
             destruct (win32api_PostMessage w hwnd _ _ _); cbn; [| reflexivity];
             destruct (win32api_PostMessage w hwnd _ 0 _); reflexivity ]). }
    destruct (click_dispatch w a px py) as [tr [[] | e]]; cbn [fst] in H;
      cbn [bind ret fst]; [rewrite app_nil_r |]; exact H.
  - intros a Ha Hms. unfold _tool_key. rewrite Ha, bind_lift_ok.
    assert (H : sleeps (fst (if String.eqb (k_mode a) "pydirectinput"
                             then key_pydirectinput w a
                             else key_postmessage rt w a)) = []).
    { destruct (String.eqb (k_mode a) "pydirectinput").
      - unfold key_pydirectinput.
        destruct (has_pydirectinput w); cbn [negb]; [| reflexivity].
        unfold for_in_range.
        refine (loop_never_sleeps _
                 (fun _ =>
                    if String.eqb (k_action a) "down"
                    then perform (PdiKeyDown _) (pydirectinput_keyDown w _)
                    else if String.eqb (k_action a) "up"
                    then perform (PdiKeyUp _) (pydirectinput_keyUp w _)
                    else perform (PdiPress _) (pydirectinput_press w _))
                 (k_repeat a) (k_interval_ms a) Hms _ _ _ _).
        + intros j. reflexivity.
        + intros j.
          destruct (String.eqb (k_action a) "down");
            [| destruct (String.eqb (k_action a) "up")];
            apply perform_sleeps; reflexivity.
      - unfold key_postmessage.
        destruct (has_win32api w && has_win32con w); cbn [negb]; [| reflexivity].
        destruct (_find_window w (k_window a)) as [hwnd |]; [| reflexivity].
        destruct (_vk_from_key rt w (k_key a)) as [vk | e]; [| reflexivity].
        rewrite bind_lift_ok. unfold for_in_range.
        refine (loop_never_sleeps _
                 (fun _ =>
                    do _ <- (if String.eqb (k_action a) "press"
                                || String.eqb (k_action a) "down"
                             then perform (PostMessage hwnd _ vk 0)
                                          (win32api_PostMessage w hwnd _ vk 0)
                             else ret tt);
                    if String.eqb (k_action a) "press" || String.eqb (k_action a) "up"
                    then perform (PostMessage hwnd _ vk 0)
                                 (win32api_PostMessage w hwnd _ vk 0)
                    else ret tt)
                 (k_repeat a) (k_interval_ms a) Hms _ _ _ _).
        + intros j. rewrite bind_assoc. reflexivity.
        + intros j.
          destruct (String.eqb (k_action a) "press" || String.eqb (k_action a) "down");
            destruct (String.eqb (k_action a) "press" || String.eqb (k_action a) "up");
            try destruct (win32api_PostMessage w hwnd win32con.WM_KEYDOWN vk 0);
            try destruct (win32api_PostMessage w hwnd win32con.WM_KEYUP vk 0);
            reflexivity. }
    destruct (if String.eqb (k_mode a) "pydirectinput" then _ else _)
      as [tr [[] | e]]; cbn [fst] in H; cbn [bind ret fst];
      [rewrite app_nil_r |]; exact H.
Qed.

Lemma nonpositive_interval_never_sleeps_witness :
  sleeps (fst (_tool_key Fixture.rt Fixture.desk
                 [("key", JStr "esc"); ("repeat", JInt 3); ("interval_ms", JInt (-5))]))
  = [].
Proof.
  exact (proj2 (nonpositive_interval_never_sleeps Fixture.rt Fixture.desk
                  [("key", JStr "esc"); ("repeat", JInt 3); ("interval_ms", JInt (-5))])
               (locals_key "postmessage" "esc" "press" 3 (-5)) eq_refl
               ltac:(discriminate)).
Defined.

(** ** What window resolution answers *)

Lemma py_max_largest {A} (key : A -> Z) (l : list A) (m : A) :
  py_max key l = Some m -> In m l /\ forall y, In y l -> key y <= key m.
Proof.
  intros H. destruct (py_max_first_largest key l m H) as (b & a & -> & Hb & Ha).
  split; [apply in_or_app; right; left; reflexivity |].
  intros y Hy. apply in_app_or in Hy. destruct Hy as [Hy | [-> | Hy]].
  - specialize (Hb y Hy). lia.
  - lia.
  - exact (Ha y Hy).
Qed.

(** X9.  A handle that [_find_window] answers is always one of the
    enumerated handles, a visible window that passes the filters that are
    set, and no enumerated window that passes them has a larger area.
    Without win32gui, or when the enumeration raises, the answer is
    [None]. *)
Theorem find_window_sound (w : World) (t : WindowTarget) :
  (forall h, _find_window w t = Some h ->
     has_win32gui w = true
     /\ exists hwnds,
          win32gui_EnumWindows w = Ok hwnds
          /\ In h hwnds
          /\ is_candidate w t h
          /\ forall h', In h' hwnds -> enum_cb w t h' = true -> area w h' <= area w h)
  /\ (has_win32gui w = false -> _find_window w t = None)
  /\ (forall e, win32gui_EnumWindows w = Raise e -> _find_window w t = None).
Proof.
  split; [| split].
  - intros h H. unfold _find_window in H.
    destruct (has_win32gui w); cbn [negb] in H; [| discriminate].
    split; [reflexivity |].
    destruct (win32gui_EnumWindows w) as [hwnds | e]; [| discriminate].
    exists hwnds. split; [reflexivity |].
    assert (Hmax : py_max (area w) (filter (enum_cb w t) hwnds) = Some h).
    { destruct (filter (enum_cb w t) hwnds); [discriminate | exact H]. }
    destruct (py_max_largest _ _ _ Hmax) as [Hin Hle].
    apply filter_In in Hin. destruct Hin as [Hin Hcb].
    split; [exact Hin |]. split; [apply candidate_of_enum_cb, Hcb |].
    intros h' Hin' Hcb'. apply Hle. apply filter_In. auto.
  - intros H. unfold _find_window. rewrite H. reflexivity.
  - intros e H. unfold _find_window. rewrite H.
    destruct (has_win32gui w); reflexivity.
Qed.

Lemma find_window_sound_witness :
  has_win32gui Fixture.desk = true
  /\ exists hwnds,
       win32gui_EnumWindows Fixture.desk = Ok hwnds
       /\ In 22 hwnds
       /\ is_candidate Fixture.desk target_unreal 22
       /\ forall h', In h' hwnds -> enum_cb Fixture.desk target_unreal h' = true ->
                     area Fixture.desk h' <= area Fixture.desk 22.
Proof.
  exact (proj1 (find_window_sound Fixture.desk target_unreal) 22 eq_refl).
Defined.

Lemma filter_none {A} (f : A -> bool) (l : list A) :
  (forall x, f x = false) -> filter f l = [].
Proof.
  intros H. induction l as [| x l IH]; [reflexivity |].
  cbn [filter]. rewrite H. exact IH.
Qed.

(** X10.  A title filter that is truthy but not a string matches no
    window: the callback fails on it for every window and the failure is
    swallowed, so [_find_window] answers [None] whatever the desktop. *)
Theorem find_window_title_not_a_string (w : World) (t : WindowTarget) :
  truthy (title_contains t) = true ->
  (forall s, title_contains t <> JStr s) ->
  _find_window w t = None.
Proof.
  intros Htruthy Hstr.
  assert (Hcb : forall h, enum_cb w t h = false).
  { intros h. unfold enum_cb, enum_cb_body.
    destruct (win32gui_IsWindow w h) as [[|] |]; cbn [rbind negb try_except];
      try reflexivity.
    destruct (win32gui_IsWindowVisible w h) as [[|] |]; cbn [rbind negb try_except];
      try reflexivity.
    destruct (match hwnd_class t with
              | Some c =>
                  if negb (String.eqb c "")
                  then let? cn := win32gui_GetClassName w h in Ok (String.eqb cn c)
                  else Ok true
              | None => Ok true
              end) as [[|] |]; cbn [rbind negb try_except]; try reflexivity.
    rewrite Htruthy.
    destruct (win32gui_GetWindowText w h) as [title |]; cbn [rbind try_except];
      [| reflexivity].
    destruct (title_contains t); try reflexivity.
    exfalso. eapply Hstr. reflexivity. }
  unfold _find_window.
  destruct (has_win32gui w); cbn [negb]; [| reflexivity].
  destruct (win32gui_EnumWindows w) as [hwnds |]; [| reflexivity].
  rewrite (filter_none _ _ Hcb). reflexivity.
Qed.

Lemma find_window_title_not_a_string_witness :
  _find_window Fixture.desk target_array_title = None.
Proof.
  refine (find_window_title_not_a_string Fixture.desk target_array_title eq_refl _).
  intros s H. discriminate H.
Defined.

Example click_with_numeric_title :
  _tool_click Fixture.rt Fixture.desk
    [("x", JInt 0); ("y", JInt 0); ("title_contains", JInt 5)]
  = ([], Raise (RuntimeError "target window not found")).
Proof. reflexivity. Qed.

(** ** The virtual-key codes *)






(** X12.  With pywin32 there, a key name that is one letter or one digit
    resolves to the code point of its upper case, the same for both
    cases of a letter, and the key-scan lookup is not consulted. *)
Theorem vk_from_key_alnum (rt : Runtime) (w : World) (c : ascii) :
  has_win32con w = true -> has_win32api w = true ->
  is_alnum c = true ->
  _vk_from_key rt w (String c EmptyString) = Ok (Z.of_N (N_of_ascii (upper_char c)))
  /\ _vk_from_key rt w (String (lower_char c) EmptyString)
     = _vk_from_key rt w (String (upper_char c) EmptyString).
Proof.
  intros Hcon Hapi Hc.
  rewrite !(vk_from_key_eq rt w _ Hcon Hapi).
  destruct c as [[] [] [] [] [] [] [] []];
    vm_compute in Hc; try discriminate Hc; split; reflexivity.
Qed.

Lemma vk_from_key_alnum_witness :
  _vk_from_key Fixture.rt Fixture.desk "w" = Ok 87
  /\ _vk_from_key Fixture.rt Fixture.desk "w" = _vk_from_key Fixture.rt Fixture.desk "W".
Proof.
  exact (vk_from_key_alnum Fixture.rt Fixture.desk "w" eq_refl eq_refl eq_refl).
Defined.

(** ** What the server writes *)

Lemma handle_request_outputs (rt : Runtime) (w : World) (req : dict) :
  outputs (fst (_handle_request rt w req)) = []
  \/ exists p, outputs (fst (_handle_request rt w req)) = [p]
               /\ server_response (dict_get req "id") p.
Proof.
  assert (Hres : forall result,
            exists p, outputs (_result (dict_get req "id") result) = [p]
                      /\ server_response (dict_get req "id") p).
  { intros result. eexists. split; [reflexivity |]. left. eauto. }
  assert (Herr : forall code message, code = -32000 \/ code = -32601 ->
            exists p, outputs (_error (dict_get req "id") code message JNull) = [p]
                      /\ server_response (dict_get req "id") p).
  { intros code message Hc. eexists. split; [reflexivity |]. right. eauto. }
  unfold _handle_request.
  destruct (dict_mem req "method"); cbn [negb]; [| left; reflexivity].
  destruct (eq_str (dict_get req "method") "initialize").
  { destruct (attr_get _ "protocolVersion"); [right; apply Hres | left; reflexivity]. }
  destruct (eq_str (dict_get req "method") "initialized"
            || eq_str (dict_get req "method") "notifications/initialized");
    [left; reflexivity |].
  destruct (eq_str (dict_get req "method") "tools/list"); [right; apply Hres |].
  destruct (eq_str (dict_get req "method") "resources/list"); [right; apply Hres |].
  destruct (eq_str (dict_get req "method") "prompts/list"); [right; apply Hres |].
  destruct (eq_str (dict_get req "method") "tools/call").
  { destruct (tools_call_body rt w _) as [effs [r | e]]; cbn [fst];
      rewrite outputs_after_effects; right; [apply Hres | apply Herr; auto]. }
  destruct (negb (is_none (dict_get req "id")));
    [right; apply Herr; auto | left; reflexivity].
Qed.

Lemma main_step_outputs (rt : Runtime) (w : World) (raw : string) :
  outputs (main_step rt w raw) = []
  \/ exists p id_, outputs (main_step rt w raw) = [p] /\ server_response id_ p.
Proof.
  unfold main_step.
  destruct (bytes_decode rt raw) as [text |]; [| left; reflexivity].
  destruct (String.eqb (strip text) ""); [left; reflexivity |].
  destruct (json_loads rt (strip text)) as [v |]; [| left; reflexivity].
  destruct v; try (left; reflexivity).
  destruct (handle_request_outputs rt w fields) as [H | (p & H & Hp)];
    [left; exact H | right; eauto].
Qed.

(** X13.  The server writes nothing but responses, and at most one for a
    line it reads: every line of output is a result, or an error whose
    code is -32000 or -32601, under the id of the message that is
    handled; no notification and no request is ever written. *)
Theorem server_writes_responses_only (rt : Runtime) :
  (forall w req,
     outputs (fst (_handle_request rt w req)) = []
     \/ exists p, outputs (fst (_handle_request rt w req)) = [p]
                  /\ server_response (dict_get req "id") p)
  /\ (forall stream,
        (List.length (outputs (main rt stream)) <= List.length stream)%nat
        /\ Forall (fun p => exists id_, server_response id_ p)
                  (outputs (main rt stream))).
Proof.
  split; [intros w req; apply handle_request_outputs |].
  induction stream as [| [w raw] stream [IHlen IHall]].
  - split; [apply le_n | constructor].
  - cbn [main]. rewrite outputs_app, length_app.
    destruct (main_step_outputs rt w raw) as [H | (p & id_ & H & Hp)]; rewrite H.
    + split; [cbn; lia | exact IHall].
    + split; [cbn; lia | constructor; [exists id_; exact Hp | exact IHall]].
Qed.

Example main_outputs_example :
  outputs (main Fixture.rt
             [ (Fixture.desk, Fixture.dumps (JObj Fixture.req_initialize));
               (Fixture.desk, "{bad");
               (Fixture.desk, Fixture.dumps (JObj Fixture.req_initialized_with_id));
               (Fixture.desk, Fixture.dumps (JObj Fixture.req_unknown_tool)) ])
  = (outputs (_result (JInt 3) (initialize_result (JStr "2025-03-26")))
     ++ outputs (_error (JInt 7) (-32000) "unknown tool: bogus" JNull))%list.
Proof. reflexivity. Qed.

(** ** The catalog and the dispatcher *)

Lemma catalog_names_tool_list :
  catalog_names _tool_list = ["capture"; "click"; "key"; "wait"].
Proof. reflexivity. Qed.

(** X14.  The tools the catalog advertises are the tools that are
    dispatched: a call with object arguments runs one of the four tool
    functions when its name is in the catalog of [tools/list], matched
    exactly and with case, and otherwise performs nothing and raises
    [unknown tool: <name>]. *)
Theorem catalog_is_dispatched (rt : Runtime) (w : World) (name : string) (d : dict) :
  (In name (catalog_names _tool_list) ->
   In (_handle_call rt w name (JObj d))
      [_tool_capture rt w d; _tool_click rt w d; _tool_key rt w d; _tool_wait rt d])
  /\ (~ In name (catalog_names _tool_list) ->
      _handle_call rt w name (JObj d)
      = ([], Raise (ValueError ("unknown tool: " ++ name)))).
Proof.
  rewrite catalog_names_tool_list. unfold _handle_call. split.
  - intros [<- | [<- | [<- | [<- | []]]]]; cbn; auto.
  - intros Hn.
    destruct (String.eqb_spec name "capture") as [-> | _]; [exfalso; cbn in Hn; tauto |].
    destruct (String.eqb_spec name "click") as [-> | _]; [exfalso; cbn in Hn; tauto |].
    destruct (String.eqb_spec name "key") as [-> | _]; [exfalso; cbn in Hn; tauto |].
    destruct (String.eqb_spec name "wait") as [-> | _]; [exfalso; cbn in Hn; tauto |].
    reflexivity.
Qed.

Lemma catalog_is_dispatched_witness :
  _handle_call Fixture.rt Fixture.desk "Wait" (JObj [])
  = ([], Raise (ValueError "unknown tool: Wait")).
Proof.
  refine (proj2 (catalog_is_dispatched Fixture.rt Fixture.desk "Wait" []) _).
  cbn. intros [H | [H | [H | [H | []]]]]; discriminate H.
Defined.

(** ** The name of the tool to call *)



Example tools_call_params_array :
  fst (_handle_request Fixture.rt Fixture.desk
         [("id", JInt 1); ("method", JStr "tools/call"); ("params", JArr [JStr "wait"])])
  = _error (JInt 1) (-32000) "'list' object has no attribute 'get'" JNull.
Proof. reflexivity. Qed.

(** ** Capture *)

(** X16.  When [_encode_image] returns, Pillow is there, the MIME type is
    [image/png] for the format [png] and [image/jpeg] for every other
    format, the data is the base64 of what was saved, in that format and
    with the quality for JPEG only, and the size reported is the size of
    the image that was saved; an image saved as JPEG has mode [RGB] or [L]
    or comes out of a conversion to [RGB]. *)
Theorem encode_image_format (rt : Runtime) (w : World) (img : image) (fmt : string)
        (quality max_width max_height : Z) (data mime : string) (wd ht : Z) :
  _encode_image rt w img fmt quality max_width max_height = Ok (data, mime, wd, ht) ->
  has_PIL w = true
  /\ mime = (if String.eqb fmt "png" then "image/png" else "image/jpeg")
  /\ exists saved bytes,
       Image_save w saved (if String.eqb fmt "png" then "PNG" else "JPEG")
                  (if String.eqb fmt "png" then None else Some quality) = Ok bytes
       /\ data = b64encode rt bytes
       /\ wd = img_width saved /\ ht = img_height saved
       /\ (String.eqb fmt "png" = false ->
           img_mode saved = "RGB" \/ img_mode saved = "L"
           \/ exists src, Image_convert w src "RGB" = Ok saved).
Proof.
  unfold _encode_image. intros H.
  destruct (has_PIL w); cbn [negb] in H; [| discriminate].
  split; [reflexivity |].
  destruct (if (max_width >? 0) && (max_height >? 0)
            then Image_thumbnail w img max_width max_height
            else Ok img) as [sized | e]; cbn [rbind] in H; [| discriminate].
  destruct (String.eqb fmt "png").
  - destruct (Image_save w sized "PNG" None) as [bytes | e] eqn:Es;
      cbn [rbind] in H; [| discriminate].
    assert (E : (b64encode rt bytes, "image/png", img_width sized, img_height sized)
                = (data, mime, wd, ht)) by congruence.
    inversion E; subst; clear E.
    split; [reflexivity |]. exists sized, bytes.
    repeat split; [exact Es | discriminate].
  - destruct (if negb (String.eqb (img_mode sized) "RGB"
                       || String.eqb (img_mode sized) "L")
              then Image_convert w sized "RGB"
              else Ok sized) as [conv | e] eqn:Ec; cbn [rbind] in H; [| discriminate].
    destruct (Image_save w conv "JPEG" (Some quality)) as [bytes | e] eqn:Es;
      cbn [rbind] in H; [| discriminate].
    assert (E : (b64encode rt bytes, "image/jpeg", img_width conv, img_height conv)
                = (data, mime, wd, ht)) by congruence.
    inversion E; subst; clear E.
    split; [reflexivity |]. exists conv, bytes.
    repeat split; [exact Es |].
    intros _.
    destruct (String.eqb_spec (img_mode sized) "RGB") as [Hrgb | _].
    { cbn [orb negb] in Ec. inversion Ec; subst. left. exact Hrgb. }
    destruct (String.eqb_spec (img_mode sized) "L") as [Hl | _].
    { cbn [orb negb] in Ec. inversion Ec; subst. right. left. exact Hl. }
    cbn [orb negb] in Ec. right. right. exists sized. exact Ec.
Qed.

Lemma encode_image_format_witness :
  has_PIL Fixture.desk = true
  /\ "image/jpeg" = (if String.eqb "gif" "png" then "image/png" else "image/jpeg")
  /\ exists saved bytes,
       Image_save Fixture.desk saved (if String.eqb "gif" "png" then "PNG" else "JPEG")
                  (if String.eqb "gif" "png" then None else Some 65) = Ok bytes
       /\ "" = b64encode Fixture.rt bytes
       /\ 640 = img_width saved /\ 480 = img_height saved
       /\ (String.eqb "gif" "png" = false ->
           img_mode saved = "RGB" \/ img_mode saved = "L"
           \/ exists src, Image_convert Fixture.desk src "RGB" = Ok saved).
Proof.
  exact (encode_image_format Fixture.rt Fixture.desk
           {| img_width := 640; img_height := 480; img_mode := "RGBA"; img_data := "" |}
           "gif" 65 1280 720 "" "image/jpeg" 640 480 eq_refl).
Defined.

Lemma capture_click_same_target (rt : Runtime) (w : World) (args_c args_k : dict)
      (ac : capture_locals) (ak : click_locals) :
  dict_get args_c "target" = dict_get args_k "target" ->
  dict_get args_c "hwnd_class" = dict_get args_k "hwnd_class" ->
  dict_get args_c "title_contains" = dict_get args_k "title_contains" ->
  dict_get args_c "include_window_frame" = dict_get args_k "include_window_frame" ->
  capture_locals_of rt w args_c = Ok ac ->
  click_locals_of rt w args_k = Ok ak ->
  p_target ac = c_target ak /\ p_window ac = c_window ak.
Proof.
  intros Ht Hc Hti Hf Hac Hak.
  unfold capture_locals_of in Hac. unfold click_locals_of in Hak.
  rewrite Ht, Hc, Hti, Hf in Hac.
  do 5 rbind_inv Hac. inversion Hac; subst ac; clear Hac.
  do 7 rbind_inv Hak. inversion Hak; subst ak; clear Hak.
  cbn [p_target c_target p_window c_window].
  split; [congruence | reflexivity].
Qed.

(** X17.  A capture call and a click call that name the target in the
    same way work on the same rectangle of the same desktop: when their
    arguments agree on [target], [hwnd_class], [title_contains] and
    [include_window_frame] and the capture resolves the rectangle [rc],
    the capture grabs and reports [rc] and the click maps its point in
    [rc] and reports it. *)
Theorem capture_and_click_agree (rt : Runtime) (w : World) (args_c args_k : dict)
        (ac : capture_locals) (ak : click_locals) (rc : rect) :
  dict_get args_c "target" = dict_get args_k "target" ->
  dict_get args_c "hwnd_class" = dict_get args_k "hwnd_class" ->
  dict_get args_c "title_contains" = dict_get args_k "title_contains" ->
  dict_get args_c "include_window_frame" = dict_get args_k "include_window_frame" ->
  capture_locals_of rt w args_c = Ok ac ->
  click_locals_of rt w args_k = Ok ak ->
  _get_capture_rect w (p_target ac) (p_window ac) = Ok rc ->
  _tool_capture rt w args_c = capture_rect rt w ac rc
  /\ _tool_click rt w args_k =
       (do _ <- click_dispatch w ak (fst (to_screen rc (c_x ak) (c_y ak)))
                                    (snd (to_screen rc (c_x ak) (c_y ak)));
        ret (click_result (c_target ak) (c_mode ak) (c_button ak) (c_x ak) (c_y ak)
               (fst (to_screen rc (c_x ak) (c_y ak)))
               (snd (to_screen rc (c_x ak) (c_y ak))) rc (c_clicks ak))).
Proof.
  intros Ht Hc Hti Hf Hac Hak Hrc.
  destruct (capture_click_same_target rt w args_c args_k ac ak Ht Hc Hti Hf Hac Hak)
    as [Etarget Ewindow].
  split.
  - unfold _tool_capture. rewrite Hac, bind_lift_ok, Hrc, bind_lift_ok. reflexivity.
  - apply tool_click_eq; [exact Hak |]. rewrite <- Etarget, <- Ewindow. exact Hrc.
Qed.

Lemma capture_and_click_agree_witness :
  _tool_capture Fixture.rt Fixture.desk args_capture_screen
  = capture_rect Fixture.rt Fixture.desk locals_capture_screen (0, 0, 1920, 1080)
  /\ fst (_tool_click Fixture.rt Fixture.desk args_click_screen)
     = [PostMessage 22 513 1 (lparam_of 860 490); PostMessage 22 514 0 (lparam_of 860 490)].
Proof.
  destruct (capture_and_click_agree Fixture.rt Fixture.desk
              args_capture_screen args_click_screen
              locals_capture_screen locals_click_screen (0, 0, 1920, 1080)
              eq_refl eq_refl eq_refl eq_refl eq_refl eq_refl eq_refl) as [Hc Hk].
  split; [exact Hc | rewrite Hk; reflexivity].
Defined.

(** X18.  A click in any mode but [pydirectinput] needs the window, also
    when the target is the screen: with target [screen] the rectangle is
    resolved, but when no window matches the call performs nothing and
    raises [target window not found], or the missing-pywin32 error when
    one of its three modules is absent. *)
Theorem click_on_screen_needs_window (rt : Runtime) (w : World) (args : dict)
        (a : click_locals) :
  click_locals_of rt w args = Ok a ->
  c_target a = "screen" ->
  String.eqb (c_mode a) "pydirectinput" = false ->
  _find_window w (c_window a) = None ->
  _tool_click rt w args
  = ([], Raise (RuntimeError
                  (if has_win32api w && has_win32con w && has_win32gui w
                   then "target window not found"
                   else "pywin32 is required for click mode=postmessage"))).
Proof.
  intros Ha Ht Hmode Hfind.
  pose proof (tool_click_eq rt w args a (screen_rect w) Ha) as H.
  rewrite Ht in H. rewrite (H (get_capture_rect_screen w _)).
  unfold click_dispatch. rewrite Hmode. unfold click_postmessage.
  destruct (has_win32api w && has_win32con w && has_win32gui w); cbn [negb];
    [rewrite Hfind |]; reflexivity.
Qed.

Lemma click_on_screen_needs_window_witness :
  _tool_click Fixture.rt (without_windows Fixture.desk) args_click_screen
  = ([], Raise (RuntimeError "target window not found")).
Proof.
  exact (click_on_screen_needs_window Fixture.rt (without_windows Fixture.desk)
           args_click_screen locals_click_screen eq_refl eq_refl eq_refl eq_refl).
Defined.

(** ** The rectangle of a window *)

(** X19.  A rectangle resolved for a target other than [screen], whatever
    the target is called, is the rectangle of the window [_find_window]
    answers, a visible window that passes the filters: its outer
    rectangle when the frame is included, and otherwise its client
    rectangle with the two corners converted to screen coordinates one by
    one. *)
Theorem window_rect_of_candidate (w : World) (target : string) (wt : WindowTarget)
        (rc : rect) :
  String.eqb target "screen" = false ->
  _get_capture_rect w target wt = Ok rc ->
  exists hwnd,
    _find_window w wt = Some hwnd
    /\ is_candidate w wt hwnd
    /\ (include_window_frame wt = true -> win32gui_GetWindowRect w hwnd = Ok rc)
    /\ (include_window_frame wt = false ->
        exists cl ct cr cb l t r b,
          win32gui_GetClientRect w hwnd = Ok (cl, ct, cr, cb)
          /\ win32gui_ClientToScreen w hwnd (cl, ct) = Ok (l, t)
          /\ win32gui_ClientToScreen w hwnd (cr, cb) = Ok (r, b)
          /\ rc = (l, t, r, b)).
Proof.
  intros Ht H. unfold _get_capture_rect in H. rewrite Ht in H.
  destruct (has_win32gui w) eqn:Hgui; cbn [negb] in H; [| discriminate].
  destruct (_find_window w wt) as [hwnd |] eqn:Hfind; [| discriminate].
  exists hwnd. split; [reflexivity |].
  split.
  { unfold _find_window in Hfind. rewrite Hgui in Hfind. cbn [negb] in Hfind.
    destruct (win32gui_EnumWindows w) as [hwnds |]; [| discriminate].
    assert (Hmax : py_max (area w) (filter (enum_cb w wt) hwnds) = Some hwnd).
    { destruct (filter (enum_cb w wt) hwnds); [discriminate | exact Hfind]. }
    destruct (py_max_largest _ _ _ Hmax) as [Hin _].
    apply filter_In in Hin. apply candidate_of_enum_cb, Hin. }
  destruct (include_window_frame wt).
  - split; [intros _; exact H | discriminate].
  - split; [discriminate | intros _].
    destruct (win32gui_GetClientRect w hwnd) as [[[[cl ct] cr] cb] |];
      cbn [rbind] in H; [| discriminate].
    destruct (win32gui_ClientToScreen w hwnd (cl, ct)) as [[l t] |] eqn:E1;
      cbn [rbind] in H; [| discriminate].
    destruct (win32gui_ClientToScreen w hwnd (cr, cb)) as [[r b] |] eqn:E2;
      cbn [rbind] in H; [| discriminate].
    exists cl, ct, cr, cb, l, t, r, b.
    repeat split; try assumption. congruence.
Qed.

Lemma window_rect_of_candidate_witness :
  exists hwnd,
    _find_window Fixture.desk target_unreal = Some hwnd
    /\ is_candidate Fixture.desk target_unreal hwnd
    /\ (include_window_frame target_unreal = true ->
        win32gui_GetWindowRect Fixture.desk hwnd = Ok (100, 50, 1380, 770))
    /\ (include_window_frame target_unreal = false ->
        exists cl ct cr cb l t r b,
          win32gui_GetClientRect Fixture.desk hwnd = Ok (cl, ct, cr, cb)
          /\ win32gui_ClientToScreen Fixture.desk hwnd (cl, ct) = Ok (l, t)
          /\ win32gui_ClientToScreen Fixture.desk hwnd (cr, cb) = Ok (r, b)
          /\ (100, 50, 1380, 770) = (l, t, r, b)).
Proof.
  exact (window_rect_of_candidate Fixture.desk "desktop" target_unreal
           (100, 50, 1380, 770) eq_refl eq_refl).
Defined.

(** X20.  A capture call grabs the screen at most once, and only after
    its arguments are read and its rectangle is resolved; a capture that
    returns has grabbed exactly the rectangle it reports in its
    metadata, under the target it reports. *)
Theorem capture_grabs_reported_rect (rt : Runtime) (w : World) (args : dict) :
  (fst (_tool_capture rt w args) = []
   \/ exists a rc,
        capture_locals_of rt w args = Ok a
        /\ _get_capture_rect w (p_target a) (p_window a) = Ok rc
        /\ fst (_tool_capture rt w args) = [Grab rc])
  /\ (forall res, snd (_tool_capture rt w args) = Ok res ->
        exists a rc,
          capture_locals_of rt w args = Ok a
          /\ _get_capture_rect w (p_target a) (p_window a) = Ok rc
          /\ fst (_tool_capture rt w args) = [Grab rc]
          /\ member res "isError" = JBool false
          /\ member (member res "metadata") "rect" = rect_json rc
          /\ member (member res "metadata") "target" = JStr (p_target a)).
Proof.
  unfold _tool_capture.
  destruct (capture_locals_of rt w args) as [a | e];
    [rewrite bind_lift_ok | split; [left; reflexivity | discriminate]].
  destruct (_get_capture_rect w (p_target a) (p_window a)) as [rc | e] eqn:Hrc;
    [rewrite bind_lift_ok | split; [left; reflexivity | discriminate]].
  unfold capture_rect, _pil_grab.
  destruct (has_PIL w); cbn [negb];
    [| split; [left; reflexivity | discriminate]].
  destruct (ImageGrab_grab w rc) as [img | e];
    [| split; [left; reflexivity | discriminate]].
  cbn [bind lift].
  destruct (_encode_image rt w img (p_fmt a) (p_quality a) (p_max_width a)
                          (p_max_height a)) as [[[[data mime] wd] ht] | e].
  - destruct rc as [[[l t] r] b]. cbn [bind lift ret fst snd app].
    split.
    + right. exists a, (l, t, r, b). repeat split; try reflexivity; exact Hrc.
    + intros res Hres. inversion Hres; subst res; clear Hres.
      exists a, (l, t, r, b). repeat split; try reflexivity; exact Hrc.
  - cbn [bind lift ret fst snd app]. split; [| discriminate].
    right. exists a, rc. repeat split; try reflexivity; exact Hrc.
Qed.

Example capture_screen :
  fst (_tool_capture Fixture.rt Fixture.desk args_capture_screen)
  = [Grab (0, 0, 1920, 1080)]
  /\ is_ok (snd (_tool_capture Fixture.rt Fixture.desk args_capture_screen)) = true.
Proof. split; reflexivity. Qed.

Lemma capture_grabs_reported_rect_witness :
  exists a rc,
    capture_locals_of Fixture.rt Fixture.desk args_capture_screen = Ok a
    /\ _get_capture_rect Fixture.desk (p_target a) (p_window a) = Ok rc
    /\ fst (_tool_capture Fixture.rt Fixture.desk args_capture_screen) = [Grab rc].
Proof.
  destruct (proj2 (capture_grabs_reported_rect Fixture.rt Fixture.desk
                     args_capture_screen) _ eq_refl)
    as (a & rc & Ha & Hrc & Htr & _).
  exists a, rc. auto.
Defined.
